(** * Follow-the-light task: training controller, trial builders, outcome evaluator

    A shallow embedding of [training_protocol.py], [habituation.py] and
    [follow_the_light.py].  Python objects become records, the dynamic
    settings object becomes a finite map from attribute names to values,
    and methods become computations in a small state-and-exception monad
    in which the object survives a raised exception, as it does in Python. *)

From Stdlib Require Import ZArith Floats.PrimFloat Numbers.Cyclic.Int63.Uint63.
From stdpp Require Import gmap strings list fin_maps.

Set Warnings "-inexact-float".

Local Open Scope string_scope.
Local Open Scope Z_scope.
Local Open Scope list_scope.

(** ** Python values held by settings and trial records *)

Inductive value : Type :=
| VInt (z : Z)
| VFloat (f : float)
| VBool (b : bool)
| VStr (s : string)
| VList (l : list string).

(** Exceptions the modelled code can raise. *)
Inductive pyexn : Type :=
| AttributeError (name : string)
| IndexError
| TypeError
| CalibrationError (port : Z).

Inductive result (A : Type) : Type :=
| Ok (a : A)
| Raise (e : pyexn).
Arguments Ok {A} a.
Arguments Raise {A} e.

(** ** Methods: state passing with exceptions

    A method of an object of type [S] maps the object before the call to
    an outcome and the object after the call.  A raised exception keeps
    every write made before it. *)

Definition M (S A : Type) : Type := S -> result A * S.

Definition ret {S A} (a : A) : M S A := fun s => (Ok a, s).

Definition bind {S A B} (m : M S A) (k : A -> M S B) : M S B :=
  fun s => match m s with
           | (Ok a, s') => k a s'
           | (Raise e, s') => (Raise e, s')
           end.

Definition raise {S A} (e : pyexn) : M S A := fun s => (Raise e, s).
Definition get {S} : M S S := fun s => (Ok s, s).
Definition modify {S} (f : S -> S) : M S unit := fun s => (Ok tt, f s).

Definition lift_result {S A} (r : result A) : M S A := fun s => (r, s).

Global Instance M_ret {S} : MRet (M S) := fun A a => ret a.
Global Instance M_bind {S} : MBind (M S) := fun A B k m => bind m k.

(** ** Python operators on values *)

Definition float_of_Z (z : Z) : float := PrimFloat.of_uint63 (Uint63.of_Z z).

(** [v == n] for an integer literal [n]. *)
Definition py_eq_int (v : value) (n : Z) : bool :=
  match v with
  | VInt z => z =? n
  | VFloat f => PrimFloat.eqb f (float_of_Z n)
  | VBool b => (if b then 1 else 0) =? n
  | _ => false
  end.

(** [needle in haystack] on strings. *)
Fixpoint str_contains (needle haystack : string) : bool :=
  String.prefix needle haystack
  || match haystack with
     | EmptyString => false
     | String _ rest => str_contains needle rest
     end.

(** ** The settings object: named attributes attached at run time *)

Abbreviation Settings := (gmap string value).

Definition getattr (st : gmap string value) (name : string) : result value :=
  match st !! name with
  | Some v => Ok v
  | None => Raise (AttributeError name)
  end.

Definition setattr (name : string) (v : value) (st : gmap string value)
  : gmap string value := <[name := v]> st.

(** [seq.iloc[i]] and [list[i]]: a negative index counts from the end, an
    index out of range raises [IndexError]. *)
Definition iloc {A} (l : list A) (i : Z) : result A :=
  let n := Z.of_nat (length l) in
  let j := if i <? 0 then n + i else i in
  if (j <? 0) || (n <=? j) then Raise IndexError
  else match l !! Z.to_nat j with
       | Some x => Ok x
       | None => Raise IndexError
       end.

(** [Series.mean()] of a boolean column: the number of [True] entries
    divided by the number of entries, in binary64; an empty column gives
    [nan]. *)
Definition mean (c : list bool) : float :=
  PrimFloat.div (float_of_Z (Z.of_nat (length (filter (λ b, b = true) c))))
                (float_of_Z (Z.of_nat (length c))).

(** * The adaptive training controller ([training_protocol.py]) *)

Module TrainingProtocol.

(** Modelled from the spec: the row type of [self.df], which the runtime
    supplies and the repository does not declare.  The history store
    returns the session records of a subject in chronological order; a
    row is one finished session, and its cells ["trial"] and ["correct"]
    hold the per-trial columns of that session (the trial numbers and the
    registered correctness), which is what [row["trial"].iloc[-1]] and
    [row["correct"].mean()] read. *)
Record Session : Type := {
  task : string;
  trial : list Z;
  correct : list bool
}.

Record t : Type := {
  settings : gmap string value;
  subject : string;
  last_task : string;
  df : list Session
}.

Definition set_setting (name : string) (v : value) : M t unit :=
  modify (λ self, {| settings := setattr name v (settings self);
                     subject := subject self;
                     last_task := last_task self;
                     df := df self |}).

Definition default_training_settings : M t unit :=
  set_setting "next_task" (VStr "Habituation");;
  set_setting "refractary_period" (VInt (3600 * 4));;
  set_setting "minimum_duration" (VInt 600);;
  set_setting "maximum_duration" (VInt 900);;
  set_setting "reward_amount_ml" (VFloat 0.08);;
  set_setting "stage" (VInt 1);;
  set_setting "light_intensity_high" (VInt 255);;
  set_setting "light_intensity_low" (VInt 50);;
  set_setting "trial_types"
    (VList ["left_easy"; "right_easy"; "left_hard"; "right_hard"]);;
  set_setting "punishment_time" (VInt 1);;
  set_setting "iti_time" (VInt 2);;
  set_setting "response_time" (VInt 10).

(** [self.df[self.df["task"] == name]] *)
Definition rows_of_task (name : string) (rows : list Session) : list Session :=
  filter (λ s, task s = name) rows.

Definition update_training_settings : M t unit :=
  self ← get;
  if String.eqb (last_task self) "Habituation" then
    let df_habituation := rows_of_task "Habituation" (df self) in
    if (2 <=? length df_habituation)%nat then
      df_last_session ← lift_result (iloc df_habituation (-1));
      trials_last_session ← lift_result (iloc (trial df_last_session) (-1));
      if 100 <=? trials_last_session then
        set_setting "next_task" (VStr "FollowTheLight");;
        set_setting "reward_amount_ml" (VFloat 0.07)
      else mret tt
    else mret tt
  else if String.eqb (last_task self) "FollowTheLight" then
    let df_follow_the_light := rows_of_task "FollowTheLight" (df self) in
    if (2 <=? length df_follow_the_light)%nat then
      df_last_session ← lift_result (iloc df_follow_the_light (-1));
      df_previous_session ← lift_result (iloc df_follow_the_light (-2));
      let performance_last_session := mean (correct df_last_session) in
      let performance_previous_session := mean (correct df_previous_session) in
      trials_last_session ← lift_result (iloc (trial df_last_session) (-1));
      trials_previous_session ← lift_result (iloc (trial df_previous_session) (-1));
      if PrimFloat.leb 0.85 performance_last_session
         && PrimFloat.leb 0.85 performance_previous_session
         && (100 <=? trials_last_session)
         && (100 <=? trials_previous_session) then
        set_setting "stage" (VInt 2);;
        set_setting "reward_amount_ml" (VFloat 0.05)
      else mret tt
    else mret tt
  else mret tt.

(** A subject as created: no attribute set yet, then the defaults. *)
Definition new_subject (name : string) : t :=
  {| settings := ∅; subject := name; last_task := ""; df := [] |}.

Definition with_history (task_name : string) (rows : list Session) (self : t) : t :=
  {| settings := settings self; subject := subject self;
     last_task := task_name; df := rows |}.

Definition with_settings (st : gmap string value) (self : t) : t :=
  {| settings := st; subject := subject self;
     last_task := last_task self; df := df self |}.

(** The runtime numbers the trials of a session 1, 2, ..., n
    ([self.current_trial]: "the current trial number starting from 1"),
    so the last entry of the trial column is the trial count. *)
Definition numbering (n : nat) : list Z := Z.of_nat <$> seq 1 n.

Definition well_numbered (s : Session) : Prop :=
  trial s = numbering (length (trial s)).

Definition trial_count (s : Session) : nat := length (trial s).

(** Trial-level accuracy of a session: mean of correctness over trials. *)
Definition accuracy (s : Session) : float := mean (correct s).

(** A session with [n] trials of which the first [k] are correct. *)
Definition session_of (name : string) (n k : nat) : Session :=
  {| task := name; trial := numbering n;
     correct := replicate k true ++ replicate (n - k) false |}.

(** A session clears the bar of the discrimination rule. *)
Definition session_passes (s : Session) : Prop :=
  (100 ≤ trial_count s)%nat ∧ PrimFloat.leb 0.85 (accuracy s) = true.

Definition stage_advanced (before after : gmap string value) : Prop :=
  ∃ s s', before !! "stage" = Some (VInt s) ∧
          after !! "stage" = Some (VInt s') ∧ s < s'.

Definition reward_lowered (before after : gmap string value) : Prop :=
  ∃ r r', before !! "reward_amount_ml" = Some (VFloat r) ∧
          after !! "reward_amount_ml" = Some (VFloat r') ∧
          PrimFloat.ltb r' r = true.

(** The order in which the protocol schedules its tasks. *)
Definition curriculum : list string := ["Habituation"; "FollowTheLight"].

Fixpoint position (name : string) (l : list string) : option nat :=
  match l with
  | [] => None
  | x :: rest => if String.eqb x name then Some 0%nat
                 else S <$> position name rest
  end.

(** [next_task] went from a task of the curriculum to an earlier one. *)
Definition task_moved_back (before after : gmap string value) : Prop :=
  ∃ a b i j, before !! "next_task" = Some (VStr a) ∧
             after !! "next_task" = Some (VStr b) ∧
             position a curriculum = Some i ∧
             position b curriculum = Some j ∧ (j < i)%nat.

(** What the two rules write. *)
Definition habituation_graduated (st : gmap string value) : gmap string value :=
  setattr "reward_amount_ml" (VFloat 0.07)
    (setattr "next_task" (VStr "FollowTheLight") st).

Definition stage_two_reached (st : gmap string value) : gmap string value :=
  setattr "reward_amount_ml" (VFloat 0.05) (setattr "stage" (VInt 2) st).

End TrainingProtocol.

(** * The state machine handed to the Bpod runtime *)

(** Modelled from the spec: the members of the runtime's [Event] and
    [Output] vocabularies that the tasks use. *)
Inductive Event : Type := Port1In | Port2In | Port3In | Tup.

Inductive Output : Type := PWM1 | PWM2 | PWM3 | Valve1 | Valve3.

(** An output action is a pair [(Output.PWM1, intensity)] or a bare
    channel such as [Output.Valve1]. *)
Inductive output_action : Type :=
| Level (o : Output) (v : value)
| Switch (o : Output).

Record State : Type := {
  state_name : string;
  state_timer : value;
  state_change_conditions : list (Event * string);
  output_actions : list output_action
}.

(** Modelled from the spec: the valve calibration service of the
    runtime, [water_calibration.get_valve_time(port=, volume=)], which
    maps a port and a volume to an opening time and raises when the port
    has no calibration. *)
Record WaterCalibration : Type := {
  get_valve_time : Z -> value -> result value
}.

(** Reading an attribute of [self] that no method has assigned yet. *)
Definition attr {S A} (name : string) (o : option A) : M S A :=
  match o with
  | Some a => mret a
  | None => raise (AttributeError name)
  end.

Definition event_name (e : Event) : string :=
  match e with
  | Port1In => "Port1In"
  | Port2In => "Port2In"
  | Port3In => "Port3In"
  | Tup => "Tup"
  end.

Definition event_eqb (a b : Event) : bool :=
  String.eqb (event_name a) (event_name b).

(** ** Running a graph *)

(** Modelled from the spec: the state machine executor of the runtime,
    which is not part of the repository.  It enters the first state
    added and, for each reported event, follows the current state's
    condition for that event when it has one; the target ["exit"] ends
    the trial.  [visited_from] lists the states entered, in order. *)

Definition find_state (g : list State) (name : string) : option State :=
  List.find (λ st, String.eqb (state_name st) name) g.

Definition next_state (st : State) (ev : string) : option string :=
  snd <$> List.find (λ c, String.eqb (event_name (fst c)) ev)
                    (state_change_conditions st).

Fixpoint visited_from (g : list State) (current : string) (log : list string)
  : list string :=
  match log with
  | [] => [current]
  | ev :: rest =>
      match find_state g current with
      | None => [current]
      | Some st =>
          match next_state st ev with
          | None => visited_from g current rest
          | Some target =>
              if String.eqb target "exit" then [current]
              else current :: visited_from g target rest
          end
      end
  end.

Definition visited (g : list State) (log : list string) : list string :=
  match g with
  | [] => []
  | entry :: _ => visited_from g (state_name entry) log
  end.

Definition opens_valve (st : State) : bool :=
  existsb (λ a, match a with
                | Switch Valve1 | Switch Valve3 => true
                | _ => false
                end) (output_actions st).

(** Number of valve openings during a run: the water actually delivered
    is this many calibrated reward volumes. *)
Definition valve_openings (g : list State) (log : list string) : nat :=
  length (List.filter (λ name, match find_state g name with
                               | Some st => opens_valve st
                               | None => false
                               end) (visited g log)).

(** ** Graph structure *)

Definition edge (g : list State) (a b : string) : Prop :=
  ∃ st ev, st ∈ g ∧ state_name st = a ∧ (ev, b) ∈ state_change_conditions st.

Inductive reach (g : list State) : string -> string -> Prop :=
| reach_refl a : reach g a a
| reach_step a b c : edge g a b -> reach g b c -> reach g a c.

Definition state_names (g : list State) : list string := state_name <$> g.

(** Every transition target is ["exit"] or the name of a state of the
    same graph. *)
Definition no_dangling (g : list State) : Prop :=
  ∀ st ev target, st ∈ g -> (ev, target) ∈ state_change_conditions st ->
    target = "exit" ∨ target ∈ state_names g.

Definition transition (g : list State) (name : string) (ev : Event)
  : option string :=
  st ← find_state g name;
  snd <$> List.find (λ c, event_eqb (fst c) ev) (state_change_conditions st).

(** * The Habituation task ([habituation.py]) *)

Module Habituation.

Record t : Type := {
  settings : gmap string value;
  water_calibration : WaterCalibration;
  left_valve_opening_time : option value;
  right_valve_opening_time : option value;
  bpod : list State;
  registered : list (string * value)
}.

Definition set_left_valve_opening_time (v : value) : M t unit :=
  modify (λ self, {| settings := settings self;
                     water_calibration := water_calibration self;
                     left_valve_opening_time := Some v;
                     right_valve_opening_time := right_valve_opening_time self;
                     bpod := bpod self;
                     registered := registered self |}).

Definition set_right_valve_opening_time (v : value) : M t unit :=
  modify (λ self, {| settings := settings self;
                     water_calibration := water_calibration self;
                     left_valve_opening_time := left_valve_opening_time self;
                     right_valve_opening_time := Some v;
                     bpod := bpod self;
                     registered := registered self |}).

(** [self.bpod.add_state(...)] *)
Definition add_state (st : State) : M t unit :=
  modify (λ self, {| settings := settings self;
                     water_calibration := water_calibration self;
                     left_valve_opening_time := left_valve_opening_time self;
                     right_valve_opening_time := right_valve_opening_time self;
                     bpod := bpod self ++ [st];
                     registered := registered self |}).

(** [self.register_value(name, v)] *)
Definition register_value (name : string) (v : value) : M t unit :=
  modify (λ self, {| settings := settings self;
                     water_calibration := water_calibration self;
                     left_valve_opening_time := left_valve_opening_time self;
                     right_valve_opening_time := right_valve_opening_time self;
                     bpod := bpod self;
                     registered := registered self ++ [(name, v)] |}).

Definition setting (name : string) : M t value :=
  self ← get; lift_result (getattr (settings self) name).

Definition start : M t unit :=
  self ← get;
  volume ← setting "reward_amount_ml";
  left ← lift_result (get_valve_time (water_calibration self) 1 volume);
  set_left_valve_opening_time left;;
  volume ← setting "reward_amount_ml";
  right ← lift_result (get_valve_time (water_calibration self) 3 volume);
  set_right_valve_opening_time right.

Definition create_trial : M t unit :=
  high ← setting "light_intensity_high";
  add_state {| state_name := "ready_to_initiate";
               state_timer := VInt 0;
               state_change_conditions := [(Port2In, "stimulus_state")];
               output_actions := [Level PWM2 high] |};;
  high1 ← setting "light_intensity_high";
  high3 ← setting "light_intensity_high";
  add_state {| state_name := "stimulus_state";
               state_timer := VInt 0;
               state_change_conditions :=
                 [(Port1In, "reward_state_left");
                  (Port3In, "reward_state_right")];
               output_actions := [Level PWM1 high1; Level PWM3 high3] |};;
  self ← get;
  left ← attr "left_valve_opening_time" (left_valve_opening_time self);
  add_state {| state_name := "reward_state_left";
               state_timer := left;
               state_change_conditions := [(Tup, "exit")];
               output_actions := [Switch Valve1] |};;
  self ← get;
  right ← attr "right_valve_opening_time" (right_valve_opening_time self);
  add_state {| state_name := "reward_state_right";
               state_timer := right;
               state_change_conditions := [(Tup, "exit")];
               output_actions := [Switch Valve3] |}.

Definition after_trial : M t unit :=
  water ← setting "reward_amount_ml";
  register_value "water" water.

Definition close : M t unit := mret tt.

(** The runtime hands [create_trial] an empty state machine. *)
Definition fresh_trial (self : t) : t :=
  {| settings := settings self;
     water_calibration := water_calibration self;
     left_valve_opening_time := left_valve_opening_time self;
     right_valve_opening_time := right_valve_opening_time self;
     bpod := [];
     registered := [] |}.

Definition new_task (st : gmap string value) (cal : WaterCalibration) : t :=
  {| settings := st; water_calibration := cal;
     left_valve_opening_time := None; right_valve_opening_time := None;
     bpod := []; registered := [] |}.

End Habituation.

(** * The discrimination task ([follow_the_light.py]) *)

Module FollowTheLight.

(** [self]: an attribute that no method has assigned yet is [None].
    [trial_data] is the ["ordered_list_of_events"] entry of the runtime's
    per-trial dictionary. *)
Record t : Type := {
  settings : gmap string value;
  water_calibration : WaterCalibration;
  left_valve_opening_time : option value;
  right_valve_opening_time : option value;
  punish_condition : option string;
  this_trial_type : option string;
  stimulus_state_output : option (list output_action);
  left_poke_action : option string;
  right_poke_action : option string;
  valve_to_open : option Output;
  valve_opening_time : option value;
  bpod : list State;
  trial_data : list string;
  registered : list (string * value)
}.

Definition set_left_valve_opening_time (v : value) : M t unit :=
  modify (λ self,
    {| settings := settings self;
       water_calibration := water_calibration self;
       left_valve_opening_time := Some v;
       right_valve_opening_time := right_valve_opening_time self;
       punish_condition := punish_condition self;
       this_trial_type := this_trial_type self;
       stimulus_state_output := stimulus_state_output self;
       left_poke_action := left_poke_action self;
       right_poke_action := right_poke_action self;
       valve_to_open := valve_to_open self;
       valve_opening_time := valve_opening_time self;
       bpod := bpod self;
       trial_data := trial_data self;
       registered := registered self |}).

Definition set_right_valve_opening_time (v : value) : M t unit :=
  modify (λ self,
    {| settings := settings self;
       water_calibration := water_calibration self;
       left_valve_opening_time := left_valve_opening_time self;
       right_valve_opening_time := Some v;
       punish_condition := punish_condition self;
       this_trial_type := this_trial_type self;
       stimulus_state_output := stimulus_state_output self;
       left_poke_action := left_poke_action self;
       right_poke_action := right_poke_action self;
       valve_to_open := valve_to_open self;
       valve_opening_time := valve_opening_time self;
       bpod := bpod self;
       trial_data := trial_data self;
       registered := registered self |}).

Definition set_punish_condition (v : string) : M t unit :=
  modify (λ self,
    {| settings := settings self;
       water_calibration := water_calibration self;
       left_valve_opening_time := left_valve_opening_time self;
       right_valve_opening_time := right_valve_opening_time self;
       punish_condition := Some v;
       this_trial_type := this_trial_type self;
       stimulus_state_output := stimulus_state_output self;
       left_poke_action := left_poke_action self;
       right_poke_action := right_poke_action self;
       valve_to_open := valve_to_open self;
       valve_opening_time := valve_opening_time self;
       bpod := bpod self;
       trial_data := trial_data self;
       registered := registered self |}).

Definition set_this_trial_type (v : string) : M t unit :=
  modify (λ self,
    {| settings := settings self;
       water_calibration := water_calibration self;
       left_valve_opening_time := left_valve_opening_time self;
       right_valve_opening_time := right_valve_opening_time self;
       punish_condition := punish_condition self;
       this_trial_type := Some v;
       stimulus_state_output := stimulus_state_output self;
       left_poke_action := left_poke_action self;
       right_poke_action := right_poke_action self;
       valve_to_open := valve_to_open self;
       valve_opening_time := valve_opening_time self;
       bpod := bpod self;
       trial_data := trial_data self;
       registered := registered self |}).

Definition set_stimulus_state_output (v : (list output_action)) : M t unit :=
  modify (λ self,
    {| settings := settings self;
       water_calibration := water_calibration self;
       left_valve_opening_time := left_valve_opening_time self;
       right_valve_opening_time := right_valve_opening_time self;
       punish_condition := punish_condition self;
       this_trial_type := this_trial_type self;
       stimulus_state_output := Some v;
       left_poke_action := left_poke_action self;
       right_poke_action := right_poke_action self;
       valve_to_open := valve_to_open self;
       valve_opening_time := valve_opening_time self;
       bpod := bpod self;
       trial_data := trial_data self;
       registered := registered self |}).

Definition set_left_poke_action (v : string) : M t unit :=
  modify (λ self,
    {| settings := settings self;
       water_calibration := water_calibration self;
       left_valve_opening_time := left_valve_opening_time self;
       right_valve_opening_time := right_valve_opening_time self;
       punish_condition := punish_condition self;
       this_trial_type := this_trial_type self;
       stimulus_state_output := stimulus_state_output self;
       left_poke_action := Some v;
       right_poke_action := right_poke_action self;
       valve_to_open := valve_to_open self;
       valve_opening_time := valve_opening_time self;
       bpod := bpod self;
       trial_data := trial_data self;
       registered := registered self |}).

Definition set_right_poke_action (v : string) : M t unit :=
  modify (λ self,
    {| settings := settings self;
       water_calibration := water_calibration self;
       left_valve_opening_time := left_valve_opening_time self;
       right_valve_opening_time := right_valve_opening_time self;
       punish_condition := punish_condition self;
       this_trial_type := this_trial_type self;
       stimulus_state_output := stimulus_state_output self;
       left_poke_action := left_poke_action self;
       right_poke_action := Some v;
       valve_to_open := valve_to_open self;
       valve_opening_time := valve_opening_time self;
       bpod := bpod self;
       trial_data := trial_data self;
       registered := registered self |}).

Definition set_valve_to_open (v : Output) : M t unit :=
  modify (λ self,
    {| settings := settings self;
       water_calibration := water_calibration self;
       left_valve_opening_time := left_valve_opening_time self;
       right_valve_opening_time := right_valve_opening_time self;
       punish_condition := punish_condition self;
       this_trial_type := this_trial_type self;
       stimulus_state_output := stimulus_state_output self;
       left_poke_action := left_poke_action self;
       right_poke_action := right_poke_action self;
       valve_to_open := Some v;
       valve_opening_time := valve_opening_time self;
       bpod := bpod self;
       trial_data := trial_data self;
       registered := registered self |}).

Definition set_valve_opening_time (v : value) : M t unit :=
  modify (λ self,
    {| settings := settings self;
       water_calibration := water_calibration self;
       left_valve_opening_time := left_valve_opening_time self;
       right_valve_opening_time := right_valve_opening_time self;
       punish_condition := punish_condition self;
       this_trial_type := this_trial_type self;
       stimulus_state_output := stimulus_state_output self;
       left_poke_action := left_poke_action self;
       right_poke_action := right_poke_action self;
       valve_to_open := valve_to_open self;
       valve_opening_time := Some v;
       bpod := bpod self;
       trial_data := trial_data self;
       registered := registered self |}).

(** [self.stimulus_state_output.append(a)] *)
Definition append_stimulus_state_output (a : output_action) : M t unit :=
  self ← get;
  out ← attr "stimulus_state_output" (stimulus_state_output self);
  set_stimulus_state_output (out ++ [a]).

(** [self.bpod.add_state(...)] *)
Definition add_state (st : State) : M t unit :=
  modify (λ self,
    {| settings := settings self;
       water_calibration := water_calibration self;
       left_valve_opening_time := left_valve_opening_time self;
       right_valve_opening_time := right_valve_opening_time self;
       punish_condition := punish_condition self;
       this_trial_type := this_trial_type self;
       stimulus_state_output := stimulus_state_output self;
       left_poke_action := left_poke_action self;
       right_poke_action := right_poke_action self;
       valve_to_open := valve_to_open self;
       valve_opening_time := valve_opening_time self;
       bpod := bpod self ++ [st];
       trial_data := trial_data self;
       registered := registered self |}).

(** [self.register_value(name, v)] *)
Definition register_value (name : string) (v : value) : M t unit :=
  modify (λ self,
    {| settings := settings self;
       water_calibration := water_calibration self;
       left_valve_opening_time := left_valve_opening_time self;
       right_valve_opening_time := right_valve_opening_time self;
       punish_condition := punish_condition self;
       this_trial_type := this_trial_type self;
       stimulus_state_output := stimulus_state_output self;
       left_poke_action := left_poke_action self;
       right_poke_action := right_poke_action self;
       valve_to_open := valve_to_open self;
       valve_opening_time := valve_opening_time self;
       bpod := bpod self;
       trial_data := trial_data self;
       registered := registered self ++ [(name, v)] |}).

Definition setting (name : string) : M t value :=
  self ← get; lift_result (getattr (settings self) name).

(** [random.choice(seq)], with the draw made explicit: [rnd] is the
    entropy consumed. *)
Definition random_choice (rnd : nat) (v : value) : M t string :=
  match v with
  | VList l =>
      match l !! (rnd `mod` length l)%nat with
      | Some x => mret x
      | None => raise IndexError
      end
  | VStr s =>
      match String.get (rnd `mod` String.length s)%nat s with
      | Some c => mret (String c EmptyString)
      | None => raise IndexError
      end
  | _ => raise TypeError
  end.

Fixpoint find_first_occurrence (event_list targets : list string) : string :=
  match event_list with
  | [] => "NaN"
  | event :: rest =>
      if existsb (String.eqb event) targets then event
      else find_first_occurrence rest targets
  end.

Definition start : M t unit :=
  self ← get;
  volume ← setting "reward_amount_ml";
  left ← lift_result (get_valve_time (water_calibration self) 1 volume);
  set_left_valve_opening_time left;;
  volume ← setting "reward_amount_ml";
  right ← lift_result (get_valve_time (water_calibration self) 3 volume);
  set_right_valve_opening_time right;;
  stage ← setting "stage";
  if py_eq_int stage 1 then set_punish_condition "stimulus_state"
  else set_punish_condition "punish_state".

Definition create_trial (rnd : nat) : M t unit :=
  trial_types ← setting "trial_types";
  choice ← random_choice rnd trial_types;
  set_this_trial_type choice;;
  set_stimulus_state_output [];;
  (if str_contains "left" choice then
     high ← setting "light_intensity_high";
     append_stimulus_state_output (Level PWM1 high);;
     (if str_contains "hard" choice then
        low ← setting "light_intensity_low";
        append_stimulus_state_output (Level PWM3 low)
      else mret tt);;
     set_left_poke_action "reward_state";;
     set_valve_to_open Valve1;;
     self ← get;
     left ← attr "left_valve_opening_time" (left_valve_opening_time self);
     set_valve_opening_time left;;
     punish ← attr "punish_condition" (punish_condition self);
     set_right_poke_action punish
   else if str_contains "right" choice then
     high ← setting "light_intensity_high";
     append_stimulus_state_output (Level PWM3 high);;
     (if str_contains "hard" choice then
        low ← setting "light_intensity_low";
        append_stimulus_state_output (Level PWM1 low)
      else mret tt);;
     self ← get;
     punish ← attr "punish_condition" (punish_condition self);
     set_left_poke_action punish;;
     set_right_poke_action "reward_state";;
     set_valve_to_open Valve3;;
     right ← attr "right_valve_opening_time" (right_valve_opening_time self);
     set_valve_opening_time right
   else mret tt);;
  high ← setting "light_intensity_high";
  add_state {| state_name := "ready_to_initiate";
               state_timer := VInt 0;
               state_change_conditions := [(Port2In, "stimulus_state")];
               output_actions := [Level PWM2 high] |};;
  timer ← setting "timer_for_response";
  self ← get;
  left_action ← attr "left_poke_action" (left_poke_action self);
  right_action ← attr "right_poke_action" (right_poke_action self);
  outputs ← attr "stimulus_state_output" (stimulus_state_output self);
  add_state {| state_name := "stimulus_state";
               state_timer := timer;
               state_change_conditions :=
                 [(Port1In, left_action);
                  (Port3In, right_action);
                  (Tup, "exit")];
               output_actions := outputs |};;
  opening ← attr "valve_opening_time" (valve_opening_time self);
  valve ← attr "valve_to_open" (valve_to_open self);
  add_state {| state_name := "reward_state";
               state_timer := opening;
               state_change_conditions := [(Tup, "iti_state")];
               output_actions := [Switch valve] |};;
  punishment_time ← setting "punishment_time";
  add_state {| state_name := "punish_state";
               state_timer := punishment_time;
               state_change_conditions := [(Tup, "iti_state")];
               output_actions := [] |};;
  iti_time ← setting "iti_time";
  add_state {| state_name := "iti_state";
               state_timer := iti_time;
               state_change_conditions := [(Tup, "exit")];
               output_actions := [] |}.

Definition after_trial : M t unit :=
  self ← get;
  let first_poke :=
    find_first_occurrence (trial_data self) ["Port1In"; "Port3In"] in
  is_left ← (if String.eqb first_poke "Port1In" then
               kind ← attr "this_trial_type" (this_trial_type self);
               mret (str_contains "left" kind)
             else mret false);
  correct ← (if is_left : bool then mret true
             else
               is_right ← (if String.eqb first_poke "Port3In" then
                             kind ← attr "this_trial_type" (this_trial_type self);
                             mret (str_contains "right" kind)
                           else mret false);
               if is_right : bool then mret true else mret false);
  water ← setting "reward_amount_ml";
  register_value "water" water;;
  kind ← attr "this_trial_type" (this_trial_type self);
  register_value "trial_type" (VStr kind);;
  register_value "correct" (VBool correct).

Definition close : M t unit := mret tt.

Definition new_task (st : gmap string value) (cal : WaterCalibration) : t :=
  {| settings := st; water_calibration := cal;
     left_valve_opening_time := None; right_valve_opening_time := None;
     punish_condition := None; this_trial_type := None;
     stimulus_state_output := None;
     left_poke_action := None; right_poke_action := None;
     valve_to_open := None; valve_opening_time := None;
     bpod := []; trial_data := []; registered := [] |}.

(** Between trials the runtime hands over an empty state machine and an
    empty trial record; the settings in effect may have been edited. *)
Definition fresh_trial (st : gmap string value) (self : t) : t :=
  {| settings := st;
       water_calibration := water_calibration self;
       left_valve_opening_time := left_valve_opening_time self;
       right_valve_opening_time := right_valve_opening_time self;
       punish_condition := punish_condition self;
       this_trial_type := this_trial_type self;
       stimulus_state_output := stimulus_state_output self;
       left_poke_action := left_poke_action self;
       right_poke_action := right_poke_action self;
       valve_to_open := valve_to_open self;
       valve_opening_time := valve_opening_time self;
       bpod := [];
       trial_data := [];
       registered := [] |}.

(** The runtime stores the event log of the finished trial. *)
Definition with_events (log : list string) (self : t) : t :=
  {| settings := settings self;
       water_calibration := water_calibration self;
       left_valve_opening_time := left_valve_opening_time self;
       right_valve_opening_time := right_valve_opening_time self;
       punish_condition := punish_condition self;
       this_trial_type := this_trial_type self;
       stimulus_state_output := stimulus_state_output self;
       left_poke_action := left_poke_action self;
       right_poke_action := right_poke_action self;
       valve_to_open := valve_to_open self;
       valve_opening_time := valve_opening_time self;
       bpod := bpod self;
       trial_data := log;
       registered := registered self |}.

(** A session: one [create_trial] per entry, each with its entropy and
    the settings in effect; the session stops at the first exception.
    The result lists the task object after each trial built. *)
Fixpoint session_trials (self : t) (trials : list (nat * gmap string value))
  : list t :=
  match trials with
  | [] => []
  | (rnd, st) :: rest =>
      match create_trial rnd (fresh_trial st self) with
      | (Ok _, self') => self' :: session_trials self' rest
      | (Raise _, _) => []
      end
  end.

(** The response event that is incorrect for a trial type. *)
Definition incorrect_event (kind : string) : Event :=
  if str_contains "left" kind then Port3In else Port1In.

Definition correct_event (kind : string) : Event :=
  if str_contains "left" kind then Port1In else Port3In.

(** The five states of a trial, in the order [create_trial] adds them. *)
Definition trial_graph (high timer : value) (left_action right_action : string)
    (outputs : list output_action) (opening : value) (valve : Output)
    (punishment_time iti_time : value) : list State :=
  [ {| state_name := "ready_to_initiate";
       state_timer := VInt 0;
       state_change_conditions := [(Port2In, "stimulus_state")];
       output_actions := [Level PWM2 high] |};
    {| state_name := "stimulus_state";
       state_timer := timer;
       state_change_conditions :=
         [(Port1In, left_action); (Port3In, right_action); (Tup, "exit")];
       output_actions := outputs |};
    {| state_name := "reward_state";
       state_timer := opening;
       state_change_conditions := [(Tup, "iti_state")];
       output_actions := [Switch valve] |};
    {| state_name := "punish_state";
       state_timer := punishment_time;
       state_change_conditions := [(Tup, "iti_state")];
       output_actions := [] |};
    {| state_name := "iti_state";
       state_timer := iti_time;
       state_change_conditions := [(Tup, "exit")];
       output_actions := [] |} ].

(** The two side-entry targets of the stimulus state: one is the reward
    state, the other the target chosen for an incorrect response. *)
Definition side_targets (pc left_action right_action : string) : Prop :=
  (left_action = "reward_state" ∧ right_action = pc)
  ∨ (left_action = pc ∧ right_action = "reward_state").

(** What a session keeps fixed once [start] has chosen [pc] as the target
    of an incorrect response. *)
Definition wired (pc : string) (self : t) : Prop :=
  punish_condition self = Some pc
  ∧ ((left_poke_action self = None ∧ right_poke_action self = None)
     ∨ ∃ l r, left_poke_action self = Some l ∧ right_poke_action self = Some r
              ∧ side_targets pc l r).

End FollowTheLight.

(** A calibration under which every port is calibrated. *)
Definition calibrated : WaterCalibration :=
  {| get_valve_time := λ port volume, Ok (VFloat 0.05) |}.

Definition default_settings : gmap string value :=
  TrainingProtocol.settings
    (TrainingProtocol.default_training_settings
       (TrainingProtocol.new_subject "subject")).2.

(** The defaults with the attribute the discrimination task reads for
    its response window also set, at stage 1 and at stage 2. *)
Definition runnable_settings : gmap string value :=
  setattr "timer_for_response" (VInt 10) default_settings.

Definition stage_two_settings : gmap string value :=
  TrainingProtocol.stage_two_reached runnable_settings.

(** ** Completed runs *)

(** Modelled from the spec: the executor hands back the event log once
    the graph has reached its terminal marker, so the log of a completed
    trial ends with the event that leads to ["exit"].  [completes_from]
    tells whether a log is such a log for a run started in a state. *)
Fixpoint completes_from (g : list State) (current : string) (log : list string)
  : bool :=
  match log with
  | [] => false
  | ev :: rest =>
      match find_state g current with
      | None => false
      | Some st =>
          match next_state st ev with
          | None => completes_from g current rest
          | Some target =>
              if String.eqb target "exit"
              then match rest with [] => true | _ :: _ => false end
              else completes_from g target rest
          end
      end
  end.

Definition completes (g : list State) (log : list string) : bool :=
  match g with
  | [] => false
  | entry :: _ => completes_from g (state_name entry) log
  end.

(** Valve openings of a run started in a given state. *)
Definition openings_from (g : list State) (current : string) (log : list string)
  : nat :=
  length (List.filter (λ name, match find_state g name with
                               | Some st => opens_valve st
                               | None => false
                               end) (visited_from g current log)).

(** * The GUI layout of the settings ([TrainingProtocol.gui_tabs]) *)

Module Gui.

(** The two attributes [gui_tabs] assigns on [self]; dictionaries from
    names to lists of names. *)
Record t : Type := {
  gui_tabs : option (gmap string (list string));
  gui_tabs_restricted : option (gmap string (list string))
}.

Definition set_gui_tabs (d : gmap string (list string)) : M t unit :=
  modify (λ self, {| gui_tabs := Some d;
                     gui_tabs_restricted := gui_tabs_restricted self |}).

Definition set_gui_tabs_restricted (d : gmap string (list string)) : M t unit :=
  modify (λ self, {| gui_tabs := gui_tabs self;
                     gui_tabs_restricted := Some d |}).

(** The call [self.gui_tabs()].  The method assigns a dictionary to the
    attribute [gui_tabs] of the instance, which from then on hides the
    method: calling it again calls the dictionary and raises
    [TypeError]. *)
Definition gui_tabs_method : M t unit :=
  self ← get;
  match gui_tabs self with
  | Some _ => raise TypeError
  | None =>
      set_gui_tabs
        (<["Port_variables" := ["reward_amount_ml"; "light_intensity_high";
                                "light_intensity_low"]]>
           (<["Other_variables" := ["stage"; "trial_types"; "punishment_time";
                                    "iti_time"; "response_time"]]> ∅));;
      set_gui_tabs_restricted
        (<["trial_types" := ["left_easy"; "right_easy"; "left_hard";
                             "right_hard"]]> ∅)
  end.

(** The settings named in some tab. *)
Definition tabbed (self : t) : list string :=
  match gui_tabs self with
  | Some d => concat (snd <$> map_to_list d)
  | None => []
  end.

End Gui.

(** * The Simple task ([simple.py]) *)

Module Simple.

(** What [print] writes: a string literal or the value of an attribute. *)
Inductive printed : Type :=
| Text (s : string)
| Shown (v : value).

Record t : Type := {
  settings : gmap string value;
  hola : option bool;
  delay : option Z;
  bpod : list State;
  stdout : list printed
}.

Definition set_hola (b : bool) : M t unit :=
  modify (λ self, {| settings := settings self; hola := Some b;
                     delay := delay self; bpod := bpod self;
                     stdout := stdout self |}).

Definition set_delay (z : Z) : M t unit :=
  modify (λ self, {| settings := settings self; hola := hola self;
                     delay := Some z; bpod := bpod self;
                     stdout := stdout self |}).

Definition set_setting (name : string) (v : value) : M t unit :=
  modify (λ self, {| settings := setattr name v (settings self);
                     hola := hola self; delay := delay self;
                     bpod := bpod self; stdout := stdout self |}).

Definition add_state (st : State) : M t unit :=
  modify (λ self, {| settings := settings self; hola := hola self;
                     delay := delay self; bpod := bpod self ++ [st];
                     stdout := stdout self |}).

Definition print (p : printed) : M t unit :=
  modify (λ self, {| settings := settings self; hola := hola self;
                     delay := delay self; bpod := bpod self;
                     stdout := stdout self ++ [p] |}).

Definition setting (name : string) : M t value :=
  self ← get; lift_result (getattr (settings self) name).

Definition start : M t unit :=
  set_hola true;;
  print (Text "start");;
  v ← setting "delay"; print (Shown v);;
  v ← setting "mylist"; print (Shown v);;
  v ← setting "next_task"; print (Shown v).

Definition create_trial : M t unit :=
  set_delay 2;;
  set_setting "delay" (VInt 3);;
  add_state {| state_name := "one";
               state_timer := VInt 1;
               state_change_conditions := [(Tup, "two")];
               output_actions := [Level PWM1 (VInt 255)] |};;
  add_state {| state_name := "two";
               state_timer := VInt 0;
               state_change_conditions := [(Tup, "exit")];
               output_actions := [] |}.

Definition after_trial : M t unit := print (Text "after trial").

Definition close : M t unit := print (Text "close").

Definition new_task (st : gmap string value) : t :=
  {| settings := st; hola := None; delay := None; bpod := []; stdout := [] |}.

(** The runtime hands [create_trial] an empty state machine. *)
Definition fresh_trial (self : t) : t :=
  {| settings := settings self; hola := hola self; delay := delay self;
     bpod := []; stdout := stdout self |}.

End Simple.

(** Calls of [create_trial] made one after the other on the same task
    object, each with its entropy and the settings then in effect; the
    object is kept whatever the outcome of a call. *)
Fixpoint attempts (self : FollowTheLight.t)
    (trials : list (nat * gmap string value)) : FollowTheLight.t :=
  match trials with
  | [] => self
  | (rnd, st) :: rest =>
      attempts
        (FollowTheLight.create_trial rnd (FollowTheLight.fresh_trial st self)).2
        rest
  end.

(** A calibration that knows port 1 only. *)
Definition left_only : WaterCalibration :=
  {| get_valve_time := λ port volume,
       if port =? 1 then Ok (VFloat 0.05) else Raise (CalibrationError port) |}.

(** The four ways an update can end.  Which one applies depends on the
    history alone, not on the settings of the subject. *)
Inductive update_outcome (self : TrainingProtocol.t)
  : result unit → (gmap string value → gmap string value) → Prop :=
| outcome_unchanged : update_outcome self (Ok tt) id
| outcome_graduated :
    TrainingProtocol.last_task self = "Habituation" →
    update_outcome self (Ok tt) TrainingProtocol.habituation_graduated
| outcome_stage_two :
    TrainingProtocol.last_task self = "FollowTheLight" →
    update_outcome self (Ok tt) TrainingProtocol.stage_two_reached
| outcome_raised (s : TrainingProtocol.Session) :
    s ∈ TrainingProtocol.rows_of_task (TrainingProtocol.last_task self)
          (TrainingProtocol.df self) →
    TrainingProtocol.trial s = [] →
    update_outcome self (Raise IndexError) id.

(** * Properties of the training controller *)

Section Controller.
Import TrainingProtocol.

Lemma iloc_last {A} (l : list A) (x : A) : iloc (l ++ [x]) (-1) = Ok x.
Proof.
  unfold iloc. rewrite length_app, Nat2Z.inj_add. cbn [length].
  change (-1 <? 0) with true. cbv iota.
  replace (Z.of_nat (length l) + Z.of_nat 1 + -1) with (Z.of_nat (length l)) by lia.
  destruct (Z.ltb_spec (Z.of_nat (length l)) 0) as [?|_]; [lia|].
  destruct (Z.leb_spec (Z.of_nat (length l) + Z.of_nat 1) (Z.of_nat (length l)))
    as [?|_]; [lia|].
  cbn [orb]. rewrite Nat2Z.id.
  rewrite lookup_app_r by lia. by rewrite Nat.sub_diag.
Qed.

Lemma iloc_previous {A} (l : list A) (x y : A) : iloc (l ++ [x; y]) (-2) = Ok x.
Proof.
  unfold iloc. rewrite length_app, Nat2Z.inj_add. cbn [length].
  change (-2 <? 0) with true. cbv iota.
  replace (Z.of_nat (length l) + Z.of_nat 2 + -2) with (Z.of_nat (length l)) by lia.
  destruct (Z.ltb_spec (Z.of_nat (length l)) 0) as [?|_]; [lia|].
  destruct (Z.leb_spec (Z.of_nat (length l) + Z.of_nat 2) (Z.of_nat (length l)))
    as [?|_]; [lia|].
  cbn [orb]. rewrite Nat2Z.id.
  rewrite lookup_app_r by lia. by rewrite Nat.sub_diag.
Qed.

Lemma iloc_empty {A} (i : Z) : iloc (@nil A) i = Raise IndexError.
Proof.
  unfold iloc. cbn [length]. change (Z.of_nat 0) with 0.
  replace (if i <? 0 then 0 + i else i) with i by (by destruct (i <? 0)).
  destruct (Z.ltb_spec i 0); [done|].
  destruct (Z.leb_spec 0 i); [done|lia].
Qed.

Lemma numbering_succ (n : nat) :
  numbering (S n) = numbering n ++ [Z.of_nat (S n)].
Proof. unfold numbering. by rewrite seq_S, fmap_app. Qed.

(** The last trial number of a well-numbered session is its trial count;
    a session without trials has no last trial number. *)
Lemma last_trial_number (s : Session) :
  well_numbered s →
  iloc (trial s) (-1) =
    if decide (trial_count s = 0%nat) then Raise IndexError
    else Ok (Z.of_nat (trial_count s)).
Proof.
  unfold well_numbered, trial_count. intros H.
  remember (length (trial s)) as n eqn:Hn. clear Hn. rewrite H.
  destruct n as [|n].
  - by rewrite decide_True.
  - rewrite decide_False by lia. rewrite numbering_succ. apply iloc_last.
Qed.

Lemma update_habituation (self : t) (older : list Session) (prev last : Session) :
  last_task self = "Habituation" →
  rows_of_task "Habituation" (df self) = older ++ [prev; last] →
  update_training_settings self =
    match iloc (trial last) (-1) with
    | Ok n => if 100 <=? n
              then (Ok tt, with_settings (habituation_graduated (settings self)) self)
              else (Ok tt, self)
    | Raise e => (Raise e, self)
    end.
Proof.
  intros Htask Hrows.
  unfold update_training_settings, mbind, M_bind, bind, get.
  rewrite Htask, Hrows. cbn [String.eqb Ascii.eqb Bool.eqb].
  rewrite length_app. cbn [length].
  replace (2 <=? length older + 2)%nat with true
    by (symmetry; apply Nat.leb_le; lia).
  change (older ++ [prev; last]) with (older ++ [prev] ++ [last]).
  rewrite app_assoc, iloc_last. unfold lift_result at 1. cbv beta iota.
  unfold lift_result. destruct (iloc (trial last) (-1)) as [n|e]; [|done].
  destruct (100 <=? n); [|done].
  destruct self; reflexivity.
Qed.

Lemma update_follow_the_light (self : t) (older : list Session) (prev last : Session) :
  last_task self = "FollowTheLight" →
  rows_of_task "FollowTheLight" (df self) = older ++ [prev; last] →
  update_training_settings self =
    match iloc (trial last) (-1), iloc (trial prev) (-1) with
    | Ok n, Ok m =>
        if PrimFloat.leb 0.85 (accuracy last) && PrimFloat.leb 0.85 (accuracy prev)
           && (100 <=? n) && (100 <=? m)
        then (Ok tt, with_settings (stage_two_reached (settings self)) self)
        else (Ok tt, self)
    | Ok _, Raise e => (Raise e, self)
    | Raise e, _ => (Raise e, self)
    end.
Proof.
  intros Htask Hrows.
  unfold update_training_settings, mbind, M_bind, bind, get.
  rewrite Htask, Hrows. cbn [String.eqb Ascii.eqb Bool.eqb].
  rewrite length_app. cbn [length].
  replace (2 <=? length older + 2)%nat with true
    by (symmetry; apply Nat.leb_le; lia).
  rewrite iloc_previous.
  change (older ++ [prev; last]) with (older ++ [prev] ++ [last]).
  rewrite app_assoc, iloc_last. unfold lift_result, accuracy. cbv beta iota.
  destruct (iloc (trial last) (-1)) as [n|e]; [|done].
  destruct (iloc (trial prev) (-1)) as [m|e]; [|done].
  match goal with |- context [if ?c then _ else _] => destruct c end; [|done].
  destruct self; reflexivity.
Qed.

(** Splitting the rows of a task when at least two are recorded. *)
Lemma two_most_recent {A} (l : list A) :
  (2 ≤ length l)%nat → ∃ older prev last, l = older ++ [prev; last].
Proof.
  intros Hlen.
  destruct (decide (l = [])) as [->|Hne]; [cbn in Hlen; lia|].
  destruct (exists_last Hne) as (l1 & last & ->).
  rewrite length_app in Hlen. cbn in Hlen.
  destruct (decide (l1 = [])) as [->|Hne1]; [cbn in Hlen; lia|].
  destruct (exists_last Hne1) as (older & prev & ->).
  exists older, prev, last. by rewrite <- app_assoc.
Qed.

(** Whatever the history, [update_training_settings] leaves the settings
    alone or performs the writes of exactly one rule, and it touches no
    other part of the object. *)
Lemma update_cases (self : t) :
  ∃ st', (update_training_settings self).2 = with_settings st' self ∧
         (st' = settings self
          ∨ st' = habituation_graduated (settings self)
          ∨ st' = stage_two_reached (settings self)).
Proof.
  assert (Hid : with_settings (settings self) self = self) by (by destruct self).
  destruct (String.eqb_spec (last_task self) "Habituation") as [Hh|Hh].
  - destruct (le_lt_dec 2 (length (rows_of_task "Habituation" (df self))))
      as [Hlen|Hlen].
    + destruct (two_most_recent _ Hlen) as (older & prev & last & Hrows).
      rewrite (update_habituation self older prev last Hh Hrows).
      destruct (iloc (trial last) (-1)) as [n|e]; [|by eauto].
      destruct (100 <=? n); by eauto.
    + exists (settings self). split; [|by left]. rewrite Hid.
      unfold update_training_settings, mbind, M_bind, bind, get.
      rewrite Hh. cbn [String.eqb Ascii.eqb Bool.eqb].
      replace (2 <=? _)%nat with false by (symmetry; apply Nat.leb_gt; lia).
      done.
  - destruct (String.eqb_spec (last_task self) "FollowTheLight") as [Hf|Hf].
    + destruct (le_lt_dec 2 (length (rows_of_task "FollowTheLight" (df self))))
        as [Hlen|Hlen].
      * destruct (two_most_recent _ Hlen) as (older & prev & last & Hrows).
        rewrite (update_follow_the_light self older prev last Hf Hrows).
        destruct (iloc (trial last) (-1)) as [n|e]; [|by eauto].
        destruct (iloc (trial prev) (-1)) as [m|e]; [|by eauto].
        match goal with |- context [if ?c then _ else _] => destruct c end;
          by eauto 6.
      * exists (settings self). split; [|by left]. rewrite Hid.
        unfold update_training_settings, mbind, M_bind, bind, get.
        rewrite Hf. cbn [String.eqb Ascii.eqb Bool.eqb].
        replace (2 <=? _)%nat with false by (symmetry; apply Nat.leb_gt; lia).
        done.
    + exists (settings self). split; [|by left]. rewrite Hid.
      unfold update_training_settings, mbind, M_bind, bind, get.
      apply String.eqb_neq in Hh, Hf. by rewrite Hh, Hf.
Qed.

Lemma with_settings_same (self : t) : with_settings (settings self) self = self.
Proof. by destruct self. Qed.

Lemma graduated_next_task (st : gmap string value) :
  habituation_graduated st !! "next_task" = Some (VStr "FollowTheLight").
Proof.
  unfold habituation_graduated, setattr.
  rewrite lookup_insert_ne by done. apply lookup_insert_eq.
Qed.

Lemma graduated_reward (st : gmap string value) :
  habituation_graduated st !! "reward_amount_ml" = Some (VFloat 0.07).
Proof. unfold habituation_graduated, setattr. apply lookup_insert_eq. Qed.

Lemma graduated_stage (st : gmap string value) :
  habituation_graduated st !! "stage" = st !! "stage".
Proof.
  unfold habituation_graduated, setattr. by rewrite !lookup_insert_ne by done.
Qed.

Lemma stage_two_stage (st : gmap string value) :
  stage_two_reached st !! "stage" = Some (VInt 2).
Proof.
  unfold stage_two_reached, setattr.
  rewrite lookup_insert_ne by done. apply lookup_insert_eq.
Qed.

Lemma stage_two_reward (st : gmap string value) :
  stage_two_reached st !! "reward_amount_ml" = Some (VFloat 0.05).
Proof. unfold stage_two_reached, setattr. apply lookup_insert_eq. Qed.

Lemma stage_two_next_task (st : gmap string value) :
  stage_two_reached st !! "next_task" = st !! "next_task".
Proof.
  unfold stage_two_reached, setattr. by rewrite !lookup_insert_ne by done.
Qed.

Lemma classic_passes (a b : Session) :
  (session_passes a ∧ session_passes b) ∨ ¬ (session_passes a ∧ session_passes b).
Proof.
  unfold session_passes.
  destruct (le_lt_dec 100 (trial_count a)), (le_lt_dec 100 (trial_count b)),
    (PrimFloat.leb 0.85 (accuracy a)), (PrimFloat.leb 0.85 (accuracy b));
    (by left) || (right; intros [[? ?] [? ?]]; (lia || done)).
Qed.

Lemma bar_on_count (s : Session) :
  trial_count s ≠ 0%nat →
  (100 <=? Z.of_nat (trial_count s)) = true ↔ (100 ≤ trial_count s)%nat.
Proof. intros _. rewrite Z.leb_le. lia. Qed.

(** C9: with fewer than two recorded sessions of the task named by
    [last_task], or with a [last_task] that is neither Habituation nor
    FollowTheLight, the update returns normally and the whole object,
    every settings attribute included, is what it was before the call. *)
Theorem update_without_rule_is_identity (self : t) :
  (length (rows_of_task (last_task self) (df self)) < 2)%nat
  ∨ (last_task self ≠ "Habituation" ∧ last_task self ≠ "FollowTheLight") →
  update_training_settings self = (Ok tt, self).
Proof.
  intros Hcase.
  unfold update_training_settings, mbind, M_bind, bind, get.
  destruct (String.eqb_spec (last_task self) "Habituation") as [Hh|Hh].
  - destruct Hcase as [Hlen|[? _]]; [|done]. rewrite Hh in Hlen.
    replace (2 <=? _)%nat with false by (symmetry; apply Nat.leb_gt; lia).
    done.
  - destruct (String.eqb_spec (last_task self) "FollowTheLight") as [Hf|Hf];
      [|done].
    destruct Hcase as [Hlen|[_ ?]]; [|done]. rewrite Hf in Hlen.
    replace (2 <=? _)%nat with false by (symmetry; apply Nat.leb_gt; lia).
    done.
Qed.

Lemma update_without_rule_is_identity_witness :
  let one_session :=
    with_history "Habituation" [session_of "Habituation" 500 0]
      (with_settings default_settings (new_subject "m1")) in
  let other_task :=
    with_history "Simple"
      [session_of "Simple" 500 500; session_of "Simple" 500 500]
      (with_settings default_settings (new_subject "m1")) in
  (length (rows_of_task (last_task one_session) (df one_session)) < 2)%nat
  ∧ update_training_settings one_session = (Ok tt, one_session)
  ∧ last_task other_task ≠ "Habituation"
  ∧ update_training_settings other_task = (Ok tt, other_task).
Proof.
  intros one_session other_task.
  assert (H1 : (length (rows_of_task (last_task one_session) (df one_session)) < 2)%nat)
    by (vm_compute; lia).
  assert (H2 : last_task other_task ≠ "Habituation"
               ∧ last_task other_task ≠ "FollowTheLight")
    by (split; discriminate).
  split; [exact H1|]. split.
  - apply (update_without_rule_is_identity one_session). by left.
  - split; [apply H2|].
    apply (update_without_rule_is_identity other_task). by right.
Defined.

(** C3 as stated fails: for a subject on a reward of 0.05, two
    Habituation sessions of which the latest has 120 trials make the
    rule fire, and the reward goes up to 0.07. *)
Lemma habituation_rule_fires_without_lowering :
  let self :=
    with_history "Habituation"
      [session_of "Habituation" 30 0; session_of "Habituation" 120 0]
      (with_settings stage_two_settings (new_subject "m1")) in
  trial_count (session_of "Habituation" 120 0) = 120%nat
  ∧ settings self !! "reward_amount_ml" = Some (VFloat 0.05)
  ∧ settings (update_training_settings self).2 !! "next_task"
    = Some (VStr "FollowTheLight")
  ∧ settings (update_training_settings self).2 !! "reward_amount_ml"
    = Some (VFloat 0.07)
  ∧ ¬ reward_lowered (settings self) (settings (update_training_settings self).2).
Proof.
  intros self.
  assert (Hr : settings self !! "reward_amount_ml" = Some (VFloat 0.05))
    by (vm_compute; reflexivity).
  assert (Hr' : settings (update_training_settings self).2 !! "reward_amount_ml"
                = Some (VFloat 0.07)) by (vm_compute; reflexivity).
  split; [vm_compute; reflexivity|]. split; [exact Hr|].
  split; [vm_compute; reflexivity|]. split; [exact Hr'|].
  intros (r & r' & H1 & H2 & Hlt). rewrite Hr in H1. rewrite Hr' in H2.
  injection H1 as <-. injection H2 as <-. vm_compute in Hlt. discriminate Hlt.
Qed.

(** C3, amended: after a Habituation session, with at least two
    Habituation sessions recorded, the rule looks at the most recent
    Habituation session alone, whatever the older sessions hold: exactly
    when its trial count (the last trial number of a session numbered
    from 1) is at least 100 it sets [next_task] to FollowTheLight and
    [reward_amount_ml] to 0.07; otherwise the object is left as it was.
    The write lowers the reward of a subject on a larger volume, such as
    the default 0.08. *)
Theorem habituation_rule (self : t) (older : list Session) (prev last : Session) :
  last_task self = "Habituation" →
  rows_of_task "Habituation" (df self) = older ++ [prev; last] →
  well_numbered last →
  ((100 ≤ trial_count last)%nat →
     update_training_settings self =
       (Ok tt, with_settings (habituation_graduated (settings self)) self)
     ∧ habituation_graduated (settings self) !! "next_task"
         = Some (VStr "FollowTheLight")
     ∧ ∀ r, settings self !! "reward_amount_ml" = Some (VFloat r) →
            PrimFloat.ltb 0.07 r = true →
            reward_lowered (settings self)
              (settings (update_training_settings self).2))
  ∧ (¬ (100 ≤ trial_count last)%nat →
     (update_training_settings self).2 = self).
Proof.
  intros Htask Hrows Hnum.
  rewrite (update_habituation self older prev last Htask Hrows).
  rewrite (last_trial_number last Hnum).
  destruct (decide (trial_count last = 0%nat)) as [Hz|Hnz].
  - split; [lia|done].
  - destruct (100 <=? Z.of_nat (trial_count last)) eqn:Hge;
      pose proof (bar_on_count last Hnz) as Hbar.
    + split; [|intros Hlt; apply Hbar in Hge; lia].
      intros _. split; [done|]. split; [apply graduated_next_task|].
      intros r Hr Hlt. exists r, 0.07%float.
      split; [done|]. split; [apply graduated_reward|done].
    + split; [|done]. intros Hc. apply Hbar in Hc. congruence.
Qed.

Lemma habituation_rule_witness :
  let subject := with_settings default_settings (new_subject "m1") in
  let last := session_of "Habituation" 120 0 in
  let self :=
    with_history "Habituation"
      [session_of "FollowTheLight" 300 300; session_of "Habituation" 30 0;
       session_of "Simple" 5 0; last; session_of "FollowTheLight" 50 0]
      subject in
  let long_ago :=
    with_history "Habituation"
      [session_of "Habituation" 500 0; session_of "FollowTheLight" 400 400;
       session_of "Habituation" 50 0]
      subject in
  last_task self = "Habituation"
  ∧ rows_of_task "Habituation" (df self)
    = [] ++ [session_of "Habituation" 30 0; last]
  ∧ well_numbered last
  ∧ (100 ≤ trial_count last)%nat
  ∧ settings (update_training_settings self).2 !! "next_task"
      = Some (VStr "FollowTheLight")
  ∧ reward_lowered (settings self) (settings (update_training_settings self).2)
  ∧ (update_training_settings long_ago).2 = long_ago.
Proof.
  intros subject last self long_ago.
  assert (Hrows : rows_of_task "Habituation" (df self)
                  = [] ++ [session_of "Habituation" 30 0; last])
    by (vm_compute; reflexivity).
  assert (Hrows' : rows_of_task "Habituation" (df long_ago)
                   = [] ++ [session_of "Habituation" 500 0;
                            session_of "Habituation" 50 0])
    by (vm_compute; reflexivity).
  assert (Hn : well_numbered last) by reflexivity.
  assert (Hc : (100 ≤ trial_count last)%nat) by (vm_compute; lia).
  destruct (habituation_rule self [] (session_of "Habituation" 30 0) last
              eq_refl Hrows Hn) as [Hyes _].
  destruct (Hyes Hc) as (Hup & Hnext & Hlow).
  destruct (habituation_rule long_ago [] (session_of "Habituation" 500 0)
              (session_of "Habituation" 50 0)
              eq_refl Hrows' eq_refl) as [_ Hno].
  split; [reflexivity|]. split; [exact Hrows|]. split; [exact Hn|].
  split; [exact Hc|]. split.
  - rewrite Hup. exact Hnext.
  - split.
    + apply (Hlow 0.08%float); vm_compute; reflexivity.
    + apply Hno. vm_compute. lia.
Defined.

(** C2 as stated fails: for a subject already at stage 2 with reward
    0.05, two passing FollowTheLight sessions make the rule fire, and
    the stage is not advanced and the reward is not lowered. *)
Lemma discrimination_rule_fires_without_advance :
  let prev := session_of "FollowTheLight" 110 99 in
  let last := session_of "FollowTheLight" 150 131 in
  let self :=
    with_history "FollowTheLight" [prev; last]
      (with_settings stage_two_settings (new_subject "m1")) in
  session_passes prev ∧ session_passes last
  ∧ settings self !! "stage" = Some (VInt 2)
  ∧ settings self !! "reward_amount_ml" = Some (VFloat 0.05)
  ∧ update_training_settings self = (Ok tt, self)
  ∧ ¬ stage_advanced (settings self) (settings (update_training_settings self).2)
  ∧ ¬ reward_lowered (settings self) (settings (update_training_settings self).2).
Proof.
  intros prev last self.
  assert (Hs : settings self !! "stage" = Some (VInt 2)) by (vm_compute; reflexivity).
  assert (Hr : settings self !! "reward_amount_ml" = Some (VFloat 0.05))
    by (vm_compute; reflexivity).
  assert (Hup : update_training_settings self = (Ok tt, self))
    by (vm_compute; reflexivity).
  split; [split; [vm_compute; lia|vm_compute; reflexivity] |].
  split; [split; [vm_compute; lia|vm_compute; reflexivity] |].
  split; [exact Hs|]. split; [exact Hr|]. split; [exact Hup|].
  rewrite Hup. cbn [snd]. split.
  - intros (s & s' & H1 & H2 & Hlt). rewrite Hs in H1, H2.
    injection H1 as <-. injection H2 as <-. lia.
  - intros (r & r' & H1 & H2 & Hlt). rewrite Hr in H1, H2.
    injection H1 as <-. injection H2 as <-. vm_compute in Hlt. discriminate Hlt.
Qed.

(** C2, amended: after a FollowTheLight session, with at least two
    FollowTheLight sessions recorded, the rule fires exactly when each of
    the two most recent FollowTheLight sessions, taken on its own, has at
    least 100 trials (the last trial number of a session numbered from 1)
    and an accuracy (mean of correctness) of at least 0.85.  Firing sets
    [stage] to 2 and [reward_amount_ml] to 0.05; when the rule does not
    fire the object is left as it was.  For a subject below stage 2 and
    on a larger reward the stage is advanced and the reward lowered
    exactly when the rule fires. *)
Theorem discrimination_rule (self : t) (older : list Session) (prev last : Session) :
  last_task self = "FollowTheLight" →
  rows_of_task "FollowTheLight" (df self) = older ++ [prev; last] →
  well_numbered prev →
  well_numbered last →
  (session_passes prev ∧ session_passes last →
     update_training_settings self =
       (Ok tt, with_settings (stage_two_reached (settings self)) self))
  ∧ (¬ (session_passes prev ∧ session_passes last) →
     (update_training_settings self).2 = self)
  ∧ (∀ s r, settings self !! "stage" = Some (VInt s) → s < 2 →
            settings self !! "reward_amount_ml" = Some (VFloat r) →
            PrimFloat.ltb 0.05 r = true →
            (stage_advanced (settings self)
               (settings (update_training_settings self).2)
             ∧ reward_lowered (settings self)
                 (settings (update_training_settings self).2))
            ↔ (session_passes prev ∧ session_passes last)).
Proof.
  intros Htask Hrows Hprev Hlast.
  assert (Hfire : session_passes prev ∧ session_passes last →
                  update_training_settings self =
                    (Ok tt, with_settings (stage_two_reached (settings self)) self)).
  { intros [[Hpc Hpa] [Hlc Hla]].
    rewrite (update_follow_the_light self older prev last Htask Hrows).
    rewrite (last_trial_number last Hlast), (last_trial_number prev Hprev).
    rewrite !decide_False by lia.
    rewrite Hla, Hpa.
    replace (100 <=? Z.of_nat (trial_count last)) with true
      by (symmetry; apply Z.leb_le; lia).
    replace (100 <=? Z.of_nat (trial_count prev)) with true
      by (symmetry; apply Z.leb_le; lia).
    done. }
  assert (Hskip : ¬ (session_passes prev ∧ session_passes last) →
                  (update_training_settings self).2 = self).
  { intros Hnot.
    rewrite (update_follow_the_light self older prev last Htask Hrows).
    rewrite (last_trial_number last Hlast), (last_trial_number prev Hprev).
    destruct (decide (trial_count last = 0%nat)) as [?|Hl]; [done|].
    destruct (decide (trial_count prev = 0%nat)) as [?|Hp]; [done|].
    destruct (PrimFloat.leb 0.85 (accuracy last)) eqn:Hla; [|done].
    destruct (PrimFloat.leb 0.85 (accuracy prev)) eqn:Hpa; [|done].
    destruct (Z.leb_spec 100 (Z.of_nat (trial_count last))) as [Hlc|?]; [|done].
    destruct (Z.leb_spec 100 (Z.of_nat (trial_count prev))) as [Hpc|?]; [|done].
    exfalso. apply Hnot. unfold session_passes. repeat split; (lia || done). }
  split; [exact Hfire|]. split; [exact Hskip|].
  intros s r Hs Hlt Hr Hrlt. split.
  - intros [(s0 & s1 & Hs0 & Hs1 & Hadv) _].
    destruct (classic_passes prev last) as [Hyes|Hno]; [exact Hyes|].
    rewrite (Hskip Hno) in Hs1. rewrite Hs0 in Hs1. injection Hs1 as ->. lia.
  - intros Hyes. rewrite (Hfire Hyes). cbn [snd with_settings settings]. split.
    + exists s, 2. split; [done|]. split; [apply stage_two_stage|done].
    + exists r, 0.05%float. split; [done|]. split; [apply stage_two_reward|done].
Qed.

Lemma discrimination_rule_witness :
  let subject := with_settings default_settings (new_subject "m1") in
  let good_prev := session_of "FollowTheLight" 110 99 in
  let good_last := session_of "FollowTheLight" 150 131 in
  let poor_last := session_of "FollowTheLight" 150 120 in
  let advancing :=
    with_history "FollowTheLight"
      [session_of "FollowTheLight" 200 0; session_of "Habituation" 120 0;
       good_prev; session_of "Habituation" 5 0; good_last;
       session_of "Simple" 5 0] subject in
  let stalling :=
    with_history "FollowTheLight"
      [session_of "Habituation" 120 120; good_prev;
       session_of "Habituation" 150 150; poor_last] subject in
  accuracy good_prev = 0.9%float
  ∧ accuracy poor_last = 0.8%float
  ∧ PrimFloat.leb 0.87 (accuracy good_last) = true
  ∧ rows_of_task "FollowTheLight" (df advancing)
    = [session_of "FollowTheLight" 200 0] ++ [good_prev; good_last]
  ∧ well_numbered good_prev ∧ well_numbered good_last
  ∧ session_passes good_prev ∧ session_passes good_last
  ∧ stage_advanced (settings advancing)
      (settings (update_training_settings advancing).2)
  ∧ reward_lowered (settings advancing)
      (settings (update_training_settings advancing).2)
  ∧ (update_training_settings stalling).2 = stalling.
Proof.
  intros subject good_prev good_last poor_last advancing stalling.
  assert (Hp : session_passes good_prev)
    by (split; [vm_compute; lia|vm_compute; reflexivity]).
  assert (Hl : session_passes good_last)
    by (split; [vm_compute; lia|vm_compute; reflexivity]).
  assert (Hpoor : ¬ (session_passes good_prev ∧ session_passes poor_last)).
  { intros [_ [_ Hacc] ]. vm_compute in Hacc. discriminate. }
  assert (Hrows : rows_of_task "FollowTheLight" (df advancing)
                  = [session_of "FollowTheLight" 200 0] ++ [good_prev; good_last])
    by (vm_compute; reflexivity).
  assert (Hrows' : rows_of_task "FollowTheLight" (df stalling)
                   = [] ++ [good_prev; poor_last])
    by (vm_compute; reflexivity).
  destruct (discrimination_rule advancing [session_of "FollowTheLight" 200 0]
              good_prev good_last eq_refl Hrows eq_refl eq_refl)
    as (_ & _ & Hiff).
  destruct (discrimination_rule stalling [] good_prev poor_last
              eq_refl Hrows' eq_refl eq_refl) as (_ & Hno & _).
  assert (Hs : settings advancing !! "stage" = Some (VInt 1))
    by (vm_compute; reflexivity).
  assert (Hr : settings advancing !! "reward_amount_ml" = Some (VFloat 0.08))
    by (vm_compute; reflexivity).
  destruct (Hiff 1 0.08%float Hs eq_refl Hr eq_refl) as [_ Hadv].
  destruct (Hadv (conj Hp Hl)) as [Hstage Hreward].
  split; [vm_compute; reflexivity|]. split; [vm_compute; reflexivity|].
  split; [vm_compute; reflexivity|]. split; [exact Hrows|].
  split; [reflexivity|]. split; [reflexivity|].
  split; [exact Hp|]. split; [exact Hl|].
  split; [exact Hstage|]. split; [exact Hreward|].
  exact (Hno Hpoor).
Defined.

Lemma position_in_curriculum (name : string) (i : nat) :
  position name curriculum = Some i → (i ≤ 1)%nat.
Proof.
  unfold curriculum. cbn [position].
  destruct (String.eqb "Habituation" name); [intros [= <-]; lia|].
  destruct (String.eqb "FollowTheLight" name); [intros [= <-]; lia|].
  discriminate.
Qed.

Lemma next_task_never_moves_back (self : t) :
  ¬ task_moved_back (settings self) (settings (update_training_settings self).2).
Proof.
  destruct (update_cases self) as (st' & Heq & Hst'). rewrite Heq.
  cbn [with_settings settings].
  intros (a & b & i & j & Ha & Hb & Hi & Hj & Hlt).
  destruct Hst' as [-> | [-> | ->] ].
  - rewrite Ha in Hb. injection Hb as <-. rewrite Hi in Hj.
    injection Hj as <-. lia.
  - rewrite graduated_next_task in Hb. injection Hb as <-.
    apply position_in_curriculum in Hi. vm_compute in Hj.
    injection Hj as <-. lia.
  - rewrite stage_two_next_task, Ha in Hb. injection Hb as <-.
    rewrite Hi in Hj. injection Hj as <-. lia.
Qed.

(** C1 as stated fails: a subject at stage 3 whose two most recent
    FollowTheLight sessions clear the bar is put at stage 2. *)
Lemma stage_above_two_is_lowered :
  let self :=
    with_history "FollowTheLight"
      [session_of "FollowTheLight" 110 99; session_of "FollowTheLight" 150 131]
      (with_settings (setattr "stage" (VInt 3) default_settings)
         (new_subject "m1")) in
  ∃ s s', settings self !! "stage" = Some (VInt s)
          ∧ settings (update_training_settings self).2 !! "stage" = Some (VInt s')
          ∧ s' < s.
Proof. exists 3, 2. split; [reflexivity|]. split; [reflexivity|]. lia. Qed.

(** C1, amended: for a subject at a stage of the task (at most 2) the
    update never decreases the stage, and for every subject it never
    moves [next_task] back to an earlier task of the curriculum; the
    stage after the update is the stage before it or 2. *)
Theorem stage_ratchet_within_two_stages (self : t) (s : Z) :
  settings self !! "stage" = Some (VInt s) →
  s ≤ 2 →
  (∃ s', settings (update_training_settings self).2 !! "stage" = Some (VInt s')
         ∧ (s' = s ∨ s' = 2) ∧ s ≤ s')
  ∧ ¬ task_moved_back (settings self)
        (settings (update_training_settings self).2).
Proof.
  intros Hs Hle. split; [|apply next_task_never_moves_back].
  destruct (update_cases self) as (st' & Heq & Hst'). rewrite Heq.
  cbn [with_settings settings].
  destruct Hst' as [-> | [-> | ->] ].
  - exists s. split; [done|]. split; [by left|lia].
  - exists s. rewrite graduated_stage. split; [done|]. split; [by left|lia].
  - exists 2. rewrite stage_two_stage. split; [done|]. split; [by right|lia].
Qed.

Lemma stage_ratchet_within_two_stages_witness :
  let self :=
    with_history "FollowTheLight"
      [session_of "FollowTheLight" 110 99; session_of "FollowTheLight" 150 131]
      (with_settings default_settings (new_subject "m1")) in
  settings self !! "stage" = Some (VInt 1)
  ∧ 1 ≤ 2
  ∧ (∃ s', settings (update_training_settings self).2 !! "stage" = Some (VInt s')
           ∧ (s' = 1 ∨ s' = 2) ∧ 1 ≤ s')
  ∧ ¬ task_moved_back (settings self)
        (settings (update_training_settings self).2).
Proof.
  intros self.
  assert (Hs : settings self !! "stage" = Some (VInt 1)) by reflexivity.
  assert (Hle : 1 ≤ 2) by lia.
  split; [exact Hs|]. split; [exact Hle|].
  exact (stage_ratchet_within_two_stages self 1 Hs Hle).
Defined.

End Controller.

(** * Properties of the trial builders and the outcome evaluator *)

Section Discrimination.
Import FollowTheLight.

Ltac run_method H :=
  cbv [start create_trial after_trial mbind M_bind bind setting get lift_result
       getattr attr modify add_state register_value mret M_ret ret raise
       random_choice append_stimulus_state_output
       set_left_valve_opening_time set_right_valve_opening_time
       set_punish_condition set_this_trial_type set_stimulus_state_output
       set_left_poke_action set_right_poke_action set_valve_to_open
       set_valve_opening_time fresh_trial new_task with_events
       settings water_calibration left_valve_opening_time
       right_valve_opening_time punish_condition this_trial_type
       stimulus_state_output left_poke_action right_poke_action valve_to_open
       valve_opening_time bpod trial_data registered] in H.

Ltac split_match H :=
  match type of H with
  | context [match ?x with _ => _ end] =>
      lazymatch x with
      | context [match _ with _ => _ end] => fail
      | _ => destruct x eqn:?; try discriminate H
      end
  end.

(** [start] on a newly constructed task fixes the target of an incorrect
    response from the stage read at that moment. *)
Lemma start_wires (st : gmap string value) (cal : WaterCalibration) (self1 : t) :
  start (new_task st cal) = (Ok tt, self1) →
  ∃ stage, st !! "stage" = Some stage
           ∧ wired (if py_eq_int stage 1 then "stimulus_state" else "punish_state")
                   self1.
Proof.
  intros H. run_method H. repeat split_match H.
  all: injection H as <-; eexists; split; [reflexivity|];
    match goal with Hb : py_eq_int _ _ = _ |- _ => rewrite Hb end;
    split; [reflexivity|left; split; reflexivity].
Qed.

(** One trial: the wiring chosen by [start] is kept, and the graph built
    has its two side entries wired to the reward state and to that
    target, whatever the settings in effect say. *)
Lemma create_trial_wires (pc : string) (st : gmap string value) (rnd : nat)
    (self self' : t) :
  wired pc self →
  create_trial rnd (fresh_trial st self) = (Ok tt, self') →
  wired pc self'
  ∧ ∃ kind high timer la ra outputs opening valve punishment iti,
      this_trial_type self' = Some kind
      ∧ st !! "timer_for_response" = Some timer
      ∧ bpod self' = trial_graph high timer la ra outputs opening valve punishment iti
      ∧ side_targets pc la ra
      ∧ (str_contains "left" kind = true → la = "reward_state" ∧ ra = pc)
      ∧ (str_contains "left" kind = false → str_contains "right" kind = true →
         la = pc ∧ ra = "reward_state").
Proof.
  intros [Hpc Hside] H. destruct self. cbn in Hpc, Hside. subst.
  run_method H. repeat split_match H.
  all: injection H as <-.
  all: try (destruct Hside as [[? ?]|(l0 & r0 & ? & ? & ?)]; simplify_eq).
  all: (split; [split; [reflexivity|right; do 2 eexists;
                 split; [reflexivity|split; [reflexivity|]]]|]).
  all: try (do 10 eexists; split; [reflexivity|]; split; [reflexivity|];
            split; [reflexivity|]).
  all: try (by left). all: try (by right). all: try done.
  all: try (split; [by left|split; [done|congruence] ]).
  all: try (split; [by right|split; [congruence|done] ]).
  all: split; [assumption|split; congruence].
Qed.

(** Case analysis on a membership in an explicit list. *)
Ltac members H :=
  repeat (rewrite elem_of_cons in H); rewrite elem_of_nil in H;
  decompose [or] H; try contradiction; simplify_eq.

Ltac conjuncts := repeat match goal with |- _ ∧ _ => split end.

Ltac in_list :=
  solve [repeat first [apply list_elem_of_here | apply list_elem_of_further]].

Section TrialGraph.
Variables (high timer : value) (la ra : string) (outputs : list output_action)
          (opening : value) (valve : Output) (punishment iti : value).

Local Abbreviation g :=
  (trial_graph high timer la ra outputs opening valve punishment iti).

Lemma trial_graph_edge (a b : string) :
  edge g a b ↔
    (a = "ready_to_initiate" ∧ b = "stimulus_state")
    ∨ (a = "stimulus_state" ∧ (b = la ∨ b = ra ∨ b = "exit"))
    ∨ (a = "reward_state" ∧ b = "iti_state")
    ∨ (a = "punish_state" ∧ b = "iti_state")
    ∨ (a = "iti_state" ∧ b = "exit").
Proof.
  split.
  - intros (s & ev & Hin & <- & Hc). unfold trial_graph in Hin.
    members Hin; cbn in Hc; members Hc; cbn; tauto.
  - intros H. unfold edge, trial_graph.
    decompose [and or] H; subst.
    + eexists _, Port2In. split; [apply list_elem_of_here|].
      split; [reflexivity|]. cbn. apply list_elem_of_here.
    + eexists _, Port1In. split; [apply list_elem_of_further, list_elem_of_here|].
      split; [reflexivity|]. cbn. apply list_elem_of_here.
    + eexists _, Port3In. split; [apply list_elem_of_further, list_elem_of_here|].
      split; [reflexivity|]. cbn. apply list_elem_of_further, list_elem_of_here.
    + eexists _, Tup. split; [apply list_elem_of_further, list_elem_of_here|].
      split; [reflexivity|]. cbn.
      do 2 apply list_elem_of_further. apply list_elem_of_here.
    + eexists _, Tup. split; [do 2 apply list_elem_of_further; apply list_elem_of_here|].
      split; [reflexivity|]. cbn. apply list_elem_of_here.
    + eexists _, Tup. split; [do 3 apply list_elem_of_further; apply list_elem_of_here|].
      split; [reflexivity|]. cbn. apply list_elem_of_here.
    + eexists _, Tup. split; [do 4 apply list_elem_of_further; apply list_elem_of_here|].
      split; [reflexivity|]. cbn. apply list_elem_of_here.
Qed.

Lemma trial_graph_names :
  state_names g =
    ["ready_to_initiate"; "stimulus_state"; "reward_state"; "punish_state";
     "iti_state"].
Proof. reflexivity. Qed.

Lemma trial_graph_side_entries :
  transition g "stimulus_state" Port1In = Some la
  ∧ transition g "stimulus_state" Port3In = Some ra
  ∧ transition g "stimulus_state" Tup = Some "exit".
Proof. by repeat split. Qed.

Lemma trial_graph_no_dangling (pc : string) :
  side_targets pc la ra →
  pc = "stimulus_state" ∨ pc = "punish_state" →
  no_dangling g.
Proof.
  intros Hside Hpc s ev target Hin Hc.
  assert (He : edge g (state_name s) target) by (exists s, ev; done).
  apply trial_graph_edge in He. rewrite trial_graph_names.
  assert (Hla : la ∈ ["stimulus_state"; "reward_state"; "punish_state"]).
  { destruct Hside as [[-> _]|[-> _]], Hpc as [->| ->]; in_list. }
  assert (Hra : ra ∈ ["stimulus_state"; "reward_state"; "punish_state"]).
  { destruct Hside as [[_ ->]|[_ ->]], Hpc as [->| ->]; in_list. }
  decompose [and or] He; subst; try (by left); right; try in_list.
  - members Hla; in_list.
  - members Hra; in_list.
Qed.

(** Stage 1 wiring: from the stimulus state only the stimulus, reward
    and inter-trial states (and the exit) can be reached. *)
Lemma trial_graph_stage_one_closed (a b : string) :
  side_targets "stimulus_state" la ra →
  reach g a b →
  a ∈ ["stimulus_state"; "reward_state"; "iti_state"; "exit"] →
  b ∈ ["stimulus_state"; "reward_state"; "iti_state"; "exit"].
Proof.
  intros Hside Hreach. induction Hreach as [a|a b c He _ IH]; [done|].
  intros Ha. apply IH. apply trial_graph_edge in He.
  destruct Hside as [[-> ->]|[-> ->]];
    decompose [and or] He; subst; try in_list; members Ha.
Qed.

Lemma trial_graph_punish_unreachable :
  side_targets "stimulus_state" la ra →
  ¬ reach g "stimulus_state" "punish_state".
Proof.
  intros Hside Hreach.
  apply (trial_graph_stage_one_closed _ _ Hside) in Hreach; [|in_list].
  members Hreach.
Qed.

Lemma trial_graph_both_reachable :
  side_targets "punish_state" la ra →
  reach g "stimulus_state" "reward_state"
  ∧ reach g "stimulus_state" "punish_state".
Proof.
  intros Hside.
  split; (eapply reach_step; [|apply reach_refl]); apply trial_graph_edge;
    right; left; (split; [done|]);
    destruct Hside as [[-> ->]|[-> ->]]; tauto.
Qed.
End TrialGraph.

(** Every trial built in a session was built from an object that still
    carries the wiring chosen by [start]. *)
Lemma session_trials_wired (pc : string) (trials : list (nat * gmap string value)) :
  ∀ self self', wired pc self → self' ∈ session_trials self trials →
    ∃ rnd st prior, wired pc prior
                    ∧ create_trial rnd (fresh_trial st prior) = (Ok tt, self').
Proof.
  induction trials as [|[rnd st] rest IH]; intros self self' Hw Hin.
  - cbn in Hin. by apply elem_of_nil in Hin.
  - cbn [session_trials] in Hin.
    destruct (create_trial rnd (fresh_trial st self)) as [[[]|e] next] eqn:Hrun.
    + apply elem_of_cons in Hin as [->|Hin].
      * by exists rnd, st, self.
      * apply (IH next); [|done].
        by destruct (create_trial_wires pc st rnd self next Hw Hrun).
    + by apply elem_of_nil in Hin.
Qed.

(** C4: the target of an incorrect first response is chosen by [start]
    from the stage read at that moment and is the one found in the graph
    of every trial of the session, whatever settings are in effect when a
    later trial is built.  With stage 1 it is the stimulus state itself,
    and the punish state cannot be reached from the stimulus state; with
    a stage of 2 or more it is the punish state, and both the reward and
    the punish state can be reached from the stimulus state. *)
Theorem punish_wiring_fixed_at_start
    (st : gmap string value) (cal : WaterCalibration) (started : t)
    (stage : value) (trials : list (nat * gmap string value)) (built : t) :
  start (new_task st cal) = (Ok tt, started) →
  st !! "stage" = Some stage →
  built ∈ session_trials started trials →
  (py_eq_int stage 1 = true →
     (∀ kind, this_trial_type built = Some kind →
        str_contains "left" kind || str_contains "right" kind = true →
        transition (bpod built) "stimulus_state" (incorrect_event kind)
          = Some "stimulus_state"
        ∧ transition (bpod built) "stimulus_state" (correct_event kind)
          = Some "reward_state")
     ∧ ¬ reach (bpod built) "stimulus_state" "punish_state")
  ∧ (∀ s, stage = VInt s → 2 ≤ s →
     (∀ kind, this_trial_type built = Some kind →
        str_contains "left" kind || str_contains "right" kind = true →
        transition (bpod built) "stimulus_state" (incorrect_event kind)
          = Some "punish_state"
        ∧ transition (bpod built) "stimulus_state" (correct_event kind)
          = Some "reward_state")
     ∧ reach (bpod built) "stimulus_state" "reward_state"
     ∧ reach (bpod built) "stimulus_state" "punish_state").
Proof.
  intros Hstart Hstage Hin.
  destruct (start_wires st cal started Hstart) as (stage' & Hstage' & Hw).
  rewrite Hstage in Hstage'. injection Hstage' as <-.
  destruct (session_trials_wired _ trials started built Hw Hin)
    as (rnd & st' & prior & Hprior & Hrun).
  destruct (create_trial_wires _ st' rnd prior built Hprior Hrun)
    as (_ & kind & high & timer & la & ra & outputs & opening & valve
          & punishment & iti & Hkind & _ & Hg & Hside & Hleft & Hright).
  rewrite Hg.
  assert (Hwire : ∀ kind', this_trial_type built = Some kind' →
            str_contains "left" kind' || str_contains "right" kind' = true →
            transition (trial_graph high timer la ra outputs opening valve
                          punishment iti)
              "stimulus_state" (incorrect_event kind')
              = Some (if py_eq_int stage 1 then "stimulus_state" else "punish_state")
            ∧ transition (trial_graph high timer la ra outputs opening valve
                            punishment iti)
                "stimulus_state" (correct_event kind')
              = Some "reward_state").
  { intros kind' Hk Hsided. rewrite Hkind in Hk. injection Hk as <-.
    unfold incorrect_event, correct_event.
    destruct (str_contains "left" kind) eqn:Hl.
    - destruct (Hleft eq_refl) as [-> ->]. by split.
    - cbn in Hsided. destruct (Hright eq_refl Hsided) as [-> ->]. by split. }
  split.
  - intros Hone. rewrite Hone in Hside, Hwire. split; [exact Hwire|].
    by apply trial_graph_punish_unreachable.
  - intros s -> Hs.
    assert (Hne : py_eq_int (VInt s) 1 = false) by (cbn; apply Z.eqb_neq; lia).
    rewrite Hne in Hside, Hwire. split; [exact Hwire|].
    by apply trial_graph_both_reachable.
Qed.

Lemma punish_wiring_fixed_at_start_witness :
  let started := (start (new_task runnable_settings calibrated)).2 in
  let trials := [(0%nat, runnable_settings); (1%nat, stage_two_settings)] in
  let built := default started (last (session_trials started trials)) in
  let started2 := (start (new_task stage_two_settings calibrated)).2 in
  let built2 := default started2 (last (session_trials started2 [(2%nat, runnable_settings)])) in
  start (new_task runnable_settings calibrated) = (Ok tt, started)
  ∧ built ∈ session_trials started trials
  ∧ settings built !! "stage" = Some (VInt 2)
  ∧ this_trial_type built = Some "right_easy"
  ∧ transition (bpod built) "stimulus_state" Port1In = Some "stimulus_state"
  ∧ ¬ reach (bpod built) "stimulus_state" "punish_state"
  ∧ this_trial_type built2 = Some "left_hard"
  ∧ transition (bpod built2) "stimulus_state" Port3In = Some "punish_state"
  ∧ reach (bpod built2) "stimulus_state" "punish_state".
Proof.
  intros started trials built started2 built2.
  assert (Hstart : start (new_task runnable_settings calibrated) = (Ok tt, started))
    by (vm_compute; reflexivity).
  assert (Hin : built ∈ session_trials started trials)
    by (vm_compute; apply list_elem_of_further, list_elem_of_here).
  assert (Hstart2 : start (new_task stage_two_settings calibrated) = (Ok tt, started2))
    by (vm_compute; reflexivity).
  assert (Hin2 : built2 ∈ session_trials started2 [(2%nat, runnable_settings)])
    by (vm_compute; apply list_elem_of_here).
  assert (Hstage : runnable_settings !! "stage" = Some (VInt 1))
    by (vm_compute; reflexivity).
  assert (Hstage2 : stage_two_settings !! "stage" = Some (VInt 2))
    by (vm_compute; reflexivity).
  assert (Hk : this_trial_type built = Some "right_easy")
    by (vm_compute; reflexivity).
  assert (Hk2 : this_trial_type built2 = Some "left_hard")
    by (vm_compute; reflexivity).
  destruct (punish_wiring_fixed_at_start runnable_settings calibrated started
              (VInt 1) trials built Hstart Hstage Hin) as [Hone _].
  destruct (Hone eq_refl) as [Hwire Hunreach].
  destruct (punish_wiring_fixed_at_start stage_two_settings calibrated started2
              (VInt 2) [(2%nat, runnable_settings)] built2 Hstart2 Hstage2 Hin2)
    as [_ Htwo].
  destruct (Htwo 2 eq_refl (Z.le_refl 2)) as (Hwire2 & _ & Hreach2).
  split; [exact Hstart|]. split; [exact Hin|].
  split; [vm_compute; reflexivity|]. split; [exact Hk|].
  split; [exact (proj1 (Hwire "right_easy" Hk eq_refl))|].
  split; [exact Hunreach|]. split; [exact Hk2|].
  split; [exact (proj1 (Hwire2 "left_hard" Hk2 eq_refl))|].
  exact Hreach2.
Defined.

(** The lights of the stimulus state: the correct side at the high
    intensity, and the other side at the low intensity for the trial
    types that contain "hard" and for those only. *)
Lemma stimulus_lights (st : gmap string value) (rnd : nat) (self built : t) :
  create_trial rnd (fresh_trial st self) = (Ok tt, built) →
  ∃ kind outputs,
    this_trial_type built = Some kind
    ∧ output_actions <$> find_state (bpod built) "stimulus_state" = Some outputs
    ∧ (str_contains "left" kind = true →
       ∃ high, st !! "light_intensity_high" = Some high
         ∧ if str_contains "hard" kind
           then ∃ low, st !! "light_intensity_low" = Some low
                       ∧ outputs = [Level PWM1 high; Level PWM3 low]
           else outputs = [Level PWM1 high])
    ∧ (str_contains "left" kind = false → str_contains "right" kind = true →
       ∃ high, st !! "light_intensity_high" = Some high
         ∧ if str_contains "hard" kind
           then ∃ low, st !! "light_intensity_low" = Some low
                       ∧ outputs = [Level PWM3 high; Level PWM1 low]
           else outputs = [Level PWM3 high]).
Proof.
  intros H. destruct self. run_method H. repeat split_match H.
  all: injection H as <-; do 2 eexists.
  all: split; [reflexivity|]; split; [reflexivity|].
  all: split; [intros Hl|intros Hl Hr]; try congruence.
  all: eexists; split; [reflexivity|].
  all: match goal with Hh : str_contains "hard" _ = _ |- _ => rewrite Hh end.
  all: try reflexivity.
  all: eexists; split; reflexivity.
Qed.

(** The timer of the stimulus state is the attribute [timer_for_response]
    of the settings in effect; no trial is built without it. *)
Lemma stimulus_timer_source (st : gmap string value) (rnd : nat) (self built : t) :
  create_trial rnd (fresh_trial st self) = (Ok tt, built) →
  ∃ timer, st !! "timer_for_response" = Some timer
           ∧ state_timer <$> find_state (bpod built) "stimulus_state" = Some timer
           ∧ transition (bpod built) "stimulus_state" Tup = Some "exit".
Proof.
  intros H. destruct self. run_method H. repeat split_match H.
  all: injection H as <-; eexists; split; [reflexivity|]; split; reflexivity.
Qed.

(** C5, at the default settings: [default_training_settings] configures
    the response window as [response_time], [create_trial] reads
    [timer_for_response].  With the defaults no stimulus state is built,
    for any of the four trial types; with both attributes set, the timer
    is [timer_for_response] and not the configured [response_time]. *)
Theorem stimulus_timer_is_not_response_time :
  let started := (start (new_task default_settings calibrated)).2 in
  let both := setattr "timer_for_response" (VInt 5) default_settings in
  let started' := (start (new_task both calibrated)).2 in
  default_settings !! "response_time" = Some (VInt 10)
  ∧ default_settings !! "timer_for_response" = None
  ∧ Forall (λ rnd, (create_trial rnd (fresh_trial default_settings started)).1
                   = Raise (AttributeError "timer_for_response"))
           [0; 1; 2; 3]%nat
  ∧ both !! "response_time" = Some (VInt 10)
  ∧ Forall (λ rnd,
      state_timer <$>
        find_state (bpod (create_trial rnd (fresh_trial both started')).2)
          "stimulus_state" = Some (VInt 5))
      [0; 1; 2; 3]%nat.
Proof.
  intros started both started'.
  split; [vm_compute; reflexivity|]. split; [vm_compute; reflexivity|].
  split; [repeat apply Forall_cons_2; try apply Forall_nil_2;
          vm_compute; reflexivity|].
  split; [vm_compute; reflexivity|].
  repeat apply Forall_cons_2; try apply Forall_nil_2; vm_compute; reflexivity.
Qed.

Lemma existsb_eqb_elem_of (x : string) (l : list string) :
  existsb (String.eqb x) l = true ↔ x ∈ l.
Proof.
  rewrite existsb_exists. split.
  - intros (y & Hin & Heq). apply String.eqb_eq in Heq as ->.
    by apply list_elem_of_In.
  - intros Hin. exists x. split; [by apply list_elem_of_In|apply String.eqb_refl].
Qed.

Lemma find_first_occurrence_skip (before rest targets : list string) :
  (∀ x, x ∈ before → x ∉ targets) →
  find_first_occurrence (before ++ rest) targets
  = find_first_occurrence rest targets.
Proof.
  induction before as [|b before IH]; intros Hnone; [done|].
  cbn [app find_first_occurrence].
  destruct (existsb (String.eqb b) targets) eqn:Hb.
  - apply existsb_eqb_elem_of in Hb. destruct (Hnone b); [left|done].
  - apply IH. intros x Hx. apply Hnone. by right.
Qed.

(** C6: the scan returns the first element of the event list that
    belongs to the targets, whatever comes after it, and the sentinel
    ["NaN"] when no element does; every event list is in one of the two
    cases. *)
Theorem find_first_occurrence_first_match (event_list targets : list string) :
  (∀ before e after,
     event_list = before ++ e :: after →
     (∀ x, x ∈ before → x ∉ targets) → e ∈ targets →
     find_first_occurrence event_list targets = e)
  ∧ ((∀ x, x ∈ event_list → x ∉ targets) →
     find_first_occurrence event_list targets = "NaN")
  ∧ ((∃ before e after, event_list = before ++ e :: after
                        ∧ (∀ x, x ∈ before → x ∉ targets) ∧ e ∈ targets)
     ∨ (∀ x, x ∈ event_list → x ∉ targets)).
Proof.
  split; [|split].
  - intros before e after -> Hnone He.
    rewrite find_first_occurrence_skip by done. cbn [find_first_occurrence].
    apply existsb_eqb_elem_of in He. by rewrite He.
  - intros Hnone.
    rewrite <- (app_nil_r event_list).
    by rewrite find_first_occurrence_skip.
  - induction event_list as [|e rest IH]; [right; by intros x ?%elem_of_nil|].
    destruct (existsb (String.eqb e) targets) eqn:He.
    + left. exists [], e, rest. split; [done|].
      split; [by intros x ?%elem_of_nil|by apply existsb_eqb_elem_of].
    + assert (Hne : e ∉ targets).
      { intros Hin. apply existsb_eqb_elem_of in Hin. congruence. }
      destruct IH as [(before & e' & after & -> & Hnone & He')|Hnone].
      * left. exists (e :: before), e', after. split; [done|].
        split; [|done]. intros x [->|Hx]%elem_of_cons; [done|by apply Hnone].
      * right. intros x [->|Hx]%elem_of_cons; [done|by apply Hnone].
Qed.

Lemma find_first_occurrence_first_match_witness :
  (∀ x, x ∈ ["Port2In"] → x ∉ ["Port1In"; "Port3In"])
  ∧ "Port3In" ∈ ["Port1In"; "Port3In"]
  ∧ find_first_occurrence ["Port2In"; "Port3In"; "Port1In"] ["Port1In"; "Port3In"]
    = "Port3In"
  ∧ (∀ x, x ∈ ["Port2In"; "Tup"] → x ∉ ["Port1In"; "Port3In"])
  ∧ find_first_occurrence ["Port2In"; "Tup"] ["Port1In"; "Port3In"] = "NaN".
Proof.
  assert (H1 : ∀ x, x ∈ ["Port2In"] → x ∉ ["Port1In"; "Port3In"]).
  { intros x Hx Hin. members Hx. members Hin. }
  assert (H2 : "Port3In" ∈ ["Port1In"; "Port3In"]) by in_list.
  assert (H3 : ∀ x, x ∈ ["Port2In"; "Tup"] → x ∉ ["Port1In"; "Port3In"]).
  { intros x Hx Hin. members Hx; members Hin. }
  split; [exact H1|]. split; [exact H2|]. split.
  - exact (proj1 (find_first_occurrence_first_match
                    ["Port2In"; "Port3In"; "Port1In"] ["Port1In"; "Port3In"])
             ["Port2In"] "Port3In" ["Port1In"] eq_refl H1 H2).
  - split; [exact H3|].
    exact (proj1 (proj2 (find_first_occurrence_first_match
                           ["Port2In"; "Tup"] ["Port1In"; "Port3In"])) H3).
Defined.

(** What [after_trial] appends to the trial record. *)
Lemma after_trial_registers (self : t) (log : list string) (kind : string) (w : value) :
  this_trial_type self = Some kind →
  settings self !! "reward_amount_ml" = Some w →
  let first_poke := find_first_occurrence log ["Port1In"; "Port3In"] in
  (after_trial (with_events log self)).1 = Ok tt
  ∧ registered (after_trial (with_events log self)).2
    = registered self
      ++ [("water", w); ("trial_type", VStr kind);
          ("correct",
           VBool (String.eqb first_poke "Port1In" && str_contains "left" kind
                  || String.eqb first_poke "Port3In" && str_contains "right" kind))].
Proof.
  intros Hk Hw first_poke. destruct self. cbn in Hk, Hw. subst.
  remember (after_trial _) as r eqn:H. run_method H.
  fold first_poke in H.
  destruct (String.eqb first_poke "Port1In"), (String.eqb first_poke "Port3In"),
    (str_contains "left" kind), (str_contains "right" kind);
    cbv beta iota zeta in H; rewrite Hw in H; subst r;
    cbn [fst snd registered andb orb]; rewrite <- !app_assoc; done.
Qed.

(** C7 as stated fails: an event log without any side entry and an event
    log whose first side entry is on the wrong side leave the same trial
    record, with [correct] registered as [False] in both. *)
Lemma omission_recorded_as_incorrect :
  let started := (start (new_task stage_two_settings calibrated)).2 in
  let built := (create_trial 0 (fresh_trial stage_two_settings started)).2 in
  let omitted := ["Port2In"; "Tup"] in
  let wrong := ["Port2In"; "Port3In"; "Tup"; "Tup"] in
  this_trial_type built = Some "left_easy"
  ∧ find_first_occurrence omitted ["Port1In"; "Port3In"] = "NaN"
  ∧ find_first_occurrence wrong ["Port1In"; "Port3In"] = "Port3In"
  ∧ registered (after_trial (with_events omitted built)).2
    = registered (after_trial (with_events wrong built)).2
  ∧ registered (after_trial (with_events omitted built)).2
    = [("water", VFloat 0.05); ("trial_type", VStr "left_easy");
       ("correct", VBool false)].
Proof. intros started built omitted wrong. conjuncts; vm_compute; reflexivity. Qed.

(** C7, amended: the trial record carries a boolean.  It is [True]
    exactly when the first side entry of the event log is on the side
    named by the trial type; it is [False] both when the first side entry
    is on the other side and when the log has no side entry at all, so an
    omitted trial is recorded like an incorrect one. *)
Theorem outcome_is_correct_or_not
    (self : t) (log : list string) (kind : string) (w : value) :
  this_trial_type self = Some kind →
  settings self !! "reward_amount_ml" = Some w →
  let first_poke := find_first_occurrence log ["Port1In"; "Port3In"] in
  ∃ correct : bool,
    (after_trial (with_events log self)).1 = Ok tt
    ∧ registered (after_trial (with_events log self)).2
      = registered self
        ++ [("water", w); ("trial_type", VStr kind); ("correct", VBool correct)]
    ∧ (correct = true ↔
         (first_poke = "Port1In" ∧ str_contains "left" kind = true)
         ∨ (first_poke = "Port3In" ∧ str_contains "right" kind = true))
    ∧ (first_poke = "NaN" → correct = false).
Proof.
  intros Hk Hw first_poke.
  destruct (after_trial_registers self log kind w Hk Hw) as [Hok Hreg].
  fold first_poke in Hreg. eexists. split; [exact Hok|]. split; [exact Hreg|].
  split.
  - rewrite orb_true_iff, !andb_true_iff, !String.eqb_eq. tauto.
  - intros ->. reflexivity.
Qed.

Lemma outcome_is_correct_or_not_witness :
  let started := (start (new_task runnable_settings calibrated)).2 in
  let built := (create_trial 0 (fresh_trial runnable_settings started)).2 in
  let log := ["Port2In"; "Port1In"; "Tup"; "Tup"] in
  this_trial_type built = Some "left_easy"
  ∧ settings built !! "reward_amount_ml" = Some (VFloat 0.08)
  ∧ ∃ correct : bool,
      (after_trial (with_events log built)).1 = Ok tt
      ∧ registered (after_trial (with_events log built)).2
        = registered built
          ++ [("water", VFloat 0.08); ("trial_type", VStr "left_easy");
              ("correct", VBool correct)]
      ∧ correct = true.
Proof.
  intros started built log.
  assert (Hk : this_trial_type built = Some "left_easy") by (vm_compute; reflexivity).
  assert (Hw : settings built !! "reward_amount_ml" = Some (VFloat 0.08))
    by (vm_compute; reflexivity).
  split; [exact Hk|]. split; [exact Hw|].
  destruct (outcome_is_correct_or_not built log "left_easy" (VFloat 0.08) Hk Hw)
    as (correct & Hok & Hreg & Hiff & _).
  exists correct. split; [exact Hok|]. split; [exact Hreg|].
  apply Hiff. left. conjuncts; vm_compute; reflexivity.
Defined.

(** C8, at a stage-2 trial of type "left_easy": after a first entry on
    the wrong side (punish, inter-trial interval, exit) and after no side
    entry at all (time-out) no valve was opened during the run, and the
    trial record still carries the full reward volume as its water.  In
    general the water registered is the setting [reward_amount_ml],
    whatever the event log. *)
Theorem water_registered_without_delivery :
  let started := (start (new_task stage_two_settings calibrated)).2 in
  let built := (create_trial 0 (fresh_trial stage_two_settings started)).2 in
  let wrong := ["Port2In"; "Port3In"; "Tup"; "Tup"] in
  let omitted := ["Port2In"; "Tup"] in
  (this_trial_type built = Some "left_easy"
   ∧ visited (bpod built) wrong
     = ["ready_to_initiate"; "stimulus_state"; "punish_state"; "iti_state"]
   ∧ valve_openings (bpod built) wrong = 0%nat
   ∧ registered (after_trial (with_events wrong built)).2
     = [("water", VFloat 0.05); ("trial_type", VStr "left_easy");
        ("correct", VBool false)]
   ∧ visited (bpod built) omitted = ["ready_to_initiate"; "stimulus_state"]
   ∧ valve_openings (bpod built) omitted = 0%nat
   ∧ registered (after_trial (with_events omitted built)).2
     = [("water", VFloat 0.05); ("trial_type", VStr "left_easy");
        ("correct", VBool false)])
  ∧ (∀ (self : t) (log : list string) (kind : string) (w : value),
       this_trial_type self = Some kind →
       settings self !! "reward_amount_ml" = Some w →
       ("water", w) ∈ registered (after_trial (with_events log self)).2).
Proof.
  intros started built wrong omitted. split.
  - conjuncts; vm_compute; reflexivity.
  - intros self log kind w Hk Hw.
    destruct (after_trial_registers self log kind w Hk Hw) as [_ ->].
    apply elem_of_app. right. left.
Qed.

End Discrimination.

Section HabituationGraph.
Import Habituation.

Ltac run_habituation H :=
  cbv [start create_trial after_trial mbind M_bind bind setting get lift_result
       getattr attr modify add_state register_value mret M_ret ret raise
       set_left_valve_opening_time set_right_valve_opening_time
       fresh_trial new_task
       settings water_calibration left_valve_opening_time
       right_valve_opening_time bpod registered] in H.

(** The graph of a Habituation trial, when one is built. *)
Lemma habituation_graph (self built : t) :
  create_trial (fresh_trial self) = (Ok tt, built) →
  ∃ high left right,
    bpod built =
      [ {| state_name := "ready_to_initiate";
           state_timer := VInt 0;
           state_change_conditions := [(Port2In, "stimulus_state")];
           output_actions := [Level PWM2 high] |};
        {| state_name := "stimulus_state";
           state_timer := VInt 0;
           state_change_conditions :=
             [(Port1In, "reward_state_left"); (Port3In, "reward_state_right")];
           output_actions := [Level PWM1 high; Level PWM3 high] |};
        {| state_name := "reward_state_left";
           state_timer := left;
           state_change_conditions := [(Tup, "exit")];
           output_actions := [Switch Valve1] |};
        {| state_name := "reward_state_right";
           state_timer := right;
           state_change_conditions := [(Tup, "exit")];
           output_actions := [Switch Valve3] |} ].
Proof.
  intros H. destruct self. run_habituation H.
  repeat match type of H with
         | context [match ?x with _ => _ end] =>
             lazymatch x with
             | context [match _ with _ => _ end] => fail
             | _ => destruct x eqn:?; try discriminate H
             end
         end.
  injection H as <-. by do 3 eexists.
Qed.

Lemma habituation_no_dangling (self built : t) :
  create_trial (fresh_trial self) = (Ok tt, built) →
  no_dangling (bpod built).
Proof.
  intros H. destruct (habituation_graph self built H) as (high & l & r & ->).
  intros s ev target Hin Hc.
  repeat (rewrite elem_of_cons in Hin); rewrite elem_of_nil in Hin.
  decompose [or] Hin; try contradiction; subst; cbn in Hc;
    repeat (rewrite elem_of_cons in Hc); rewrite elem_of_nil in Hc;
    decompose [or] Hc; try contradiction; simplify_eq;
    (by left) || (right; cbn;
       solve [repeat first [apply list_elem_of_here | apply list_elem_of_further]]).
Qed.

End HabituationGraph.

(** C10: every graph produced by either builder, whatever the settings
    and the trial type drawn, names as transition targets only ["exit"]
    or states added to the same graph. *)
Theorem builders_leave_no_dangling_edge :
  (∀ self built : Habituation.t,
     Habituation.create_trial (Habituation.fresh_trial self) = (Ok tt, built) →
     no_dangling (Habituation.bpod built))
  ∧ (∀ (st : gmap string value) (cal : WaterCalibration)
       (started built : FollowTheLight.t)
       (trials : list (nat * gmap string value)),
       FollowTheLight.start (FollowTheLight.new_task st cal) = (Ok tt, started) →
       built ∈ FollowTheLight.session_trials started trials →
       no_dangling (FollowTheLight.bpod built)).
Proof.
  split; [exact habituation_no_dangling|].
  intros st cal started built trials Hstart Hin.
  destruct (start_wires st cal started Hstart) as (stage & _ & Hw).
  destruct (session_trials_wired _ trials started built Hw Hin)
    as (rnd & st' & prior & Hprior & Hrun).
  destruct (create_trial_wires _ st' rnd prior built Hprior Hrun)
    as (_ & kind & high & timer & la & ra & outputs & opening & valve
          & punishment & iti & _ & _ & -> & Hside & _).
  eapply trial_graph_no_dangling; [exact Hside|].
  destruct (py_eq_int stage 1); [by left|by right].
Qed.

Lemma builders_leave_no_dangling_edge_witness :
  let habituated :=
    (Habituation.start (Habituation.new_task default_settings calibrated)).2 in
  let trial := (Habituation.create_trial (Habituation.fresh_trial habituated)).2 in
  let started :=
    (FollowTheLight.start (FollowTheLight.new_task stage_two_settings calibrated)).2 in
  let trials := [(3%nat, stage_two_settings); (0%nat, stage_two_settings)] in
  let built := default started (last (FollowTheLight.session_trials started trials)) in
  Habituation.create_trial (Habituation.fresh_trial habituated) = (Ok tt, trial)
  ∧ no_dangling (Habituation.bpod trial)
  ∧ FollowTheLight.start (FollowTheLight.new_task stage_two_settings calibrated)
      = (Ok tt, started)
  ∧ built ∈ FollowTheLight.session_trials started trials
  ∧ length (FollowTheLight.bpod built) = 5%nat
  ∧ no_dangling (FollowTheLight.bpod built).
Proof.
  intros habituated trial started trials built.
  assert (Hh : Habituation.create_trial (Habituation.fresh_trial habituated)
               = (Ok tt, trial)) by (vm_compute; reflexivity).
  assert (Hs : FollowTheLight.start
                 (FollowTheLight.new_task stage_two_settings calibrated)
               = (Ok tt, started)) by (vm_compute; reflexivity).
  assert (Hin : built ∈ FollowTheLight.session_trials started trials)
    by (vm_compute; apply list_elem_of_further, list_elem_of_here).
  destruct builders_leave_no_dangling_edge as [Hhab Hftl].
  split; [exact Hh|]. split; [exact (Hhab habituated trial Hh)|].
  split; [exact Hs|]. split; [exact Hin|].
  split; [vm_compute; reflexivity|].
  exact (Hftl stage_two_settings calibrated started built trials Hs Hin).
Defined.

(** * Further properties of the training controller *)

Section ControllerMore.
Import TrainingProtocol.

Lemma update_skips (self : t) :
  (length (rows_of_task (last_task self) (df self)) < 2)%nat
  ∨ (last_task self ≠ "Habituation" ∧ last_task self ≠ "FollowTheLight") →
  ∀ st, update_training_settings (with_settings st self)
        = (Ok tt, with_settings st self).
Proof.
  intros Hcase st.
  unfold update_training_settings, mbind, M_bind, bind, get.
  cbn [last_task df with_settings].
  destruct (String.eqb_spec (last_task self) "Habituation") as [Hh|Hh].
  - destruct Hcase as [Hlen|[? _] ]; [|done]. rewrite Hh in Hlen.
    replace (2 <=? _)%nat with false by (symmetry; apply Nat.leb_gt; lia).
    done.
  - destruct (String.eqb_spec (last_task self) "FollowTheLight") as [Hf|Hf];
      [|done].
    destruct Hcase as [Hlen|[_ ?] ]; [|done]. rewrite Hf in Hlen.
    replace (2 <=? _)%nat with false by (symmetry; apply Nat.leb_gt; lia).
    done.
Qed.

Lemma iloc_last_raises {A} (l : list A) (e : pyexn) :
  iloc l (-1) = Raise e → e = IndexError ∧ l = [].
Proof.
  destruct (decide (l = [])) as [->|Hne].
  - rewrite iloc_empty. by intros [= <-].
  - destruct (exists_last Hne) as (l' & x & ->). by rewrite iloc_last.
Qed.

Lemma update_decision (self : t) :
  ∃ r w, update_outcome self r w
         ∧ ∀ st, update_training_settings (with_settings st self)
                 = (r, with_settings (w st) self).
Proof.
  destruct (String.eqb_spec (last_task self) "Habituation") as [Hh|Hh].
  - destruct (le_lt_dec 2 (length (rows_of_task "Habituation" (df self))))
      as [Hlen|Hlen].
    + destruct (two_most_recent _ Hlen) as (older & prev & last & Hrows).
      assert (Hup := λ st, update_habituation (with_settings st self)
                             older prev last Hh Hrows).
      destruct (iloc (trial last) (-1)) as [n|e] eqn:Hn.
      * destruct (100 <=? n) eqn:Hge.
        -- exists (Ok tt), habituation_graduated.
           split; [by constructor|]. intros st. by rewrite Hup.
        -- exists (Ok tt), id. split; [constructor|]. intros st. by rewrite Hup.
      * apply iloc_last_raises in Hn as [-> Hnil].
        exists (Raise IndexError), id. split; [|intros st; by rewrite Hup].
        apply (outcome_raised self last); [|done].
        rewrite Hh, Hrows. apply elem_of_app. right. by right; left.
    + exists (Ok tt), id. split; [constructor|].
      apply update_skips. left. by rewrite Hh.
  - destruct (String.eqb_spec (last_task self) "FollowTheLight") as [Hf|Hf].
    + destruct (le_lt_dec 2 (length (rows_of_task "FollowTheLight" (df self))))
        as [Hlen|Hlen].
      * destruct (two_most_recent _ Hlen) as (older & prev & last & Hrows).
        assert (Hup := λ st, update_follow_the_light (with_settings st self)
                               older prev last Hf Hrows).
        destruct (iloc (trial last) (-1)) as [n|e] eqn:Hn.
        -- destruct (iloc (trial prev) (-1)) as [m|e] eqn:Hm.
           ++ destruct (PrimFloat.leb 0.85 (accuracy last)
                        && PrimFloat.leb 0.85 (accuracy prev)
                        && (100 <=? n) && (100 <=? m)) eqn:Hc.
              ** exists (Ok tt), stage_two_reached.
                 split; [by constructor|]. intros st. by rewrite Hup.
              ** exists (Ok tt), id. split; [constructor|].
                 intros st. by rewrite Hup.
           ++ apply iloc_last_raises in Hm as [-> Hnil].
              exists (Raise IndexError), id. split; [|intros st; by rewrite Hup].
              apply (outcome_raised self prev); [|done].
              rewrite Hf, Hrows. apply elem_of_app. right. by left.
        -- apply iloc_last_raises in Hn as [-> Hnil].
           exists (Raise IndexError), id. split; [|intros st; by rewrite Hup].
           apply (outcome_raised self last); [|done].
           rewrite Hf, Hrows. apply elem_of_app. right. by right; left.
      * exists (Ok tt), id. split; [constructor|].
        apply update_skips. left. by rewrite Hf.
    + exists (Ok tt), id. split; [constructor|]. apply update_skips. by right.
Qed.

Lemma update_self (self : t) :
  ∃ r w, update_outcome self r w
         ∧ update_training_settings self = (r, with_settings (w (settings self)) self)
         ∧ ∀ st, update_training_settings (with_settings st self)
                 = (r, with_settings (w st) self).
Proof.
  destruct (update_decision self) as (r & w & Hout & Hall).
  exists r, w. split; [done|]. split; [|done].
  rewrite <- (Hall (settings self)). by destruct self.
Qed.

Lemma graduated_twice (st : gmap string value) :
  habituation_graduated (habituation_graduated st) = habituation_graduated st.
Proof.
  apply map_eq. intros k. unfold habituation_graduated, setattr.
  rewrite !lookup_insert. by repeat case_decide.
Qed.

Lemma stage_two_twice (st : gmap string value) :
  stage_two_reached (stage_two_reached st) = stage_two_reached st.
Proof.
  apply map_eq. intros k. unfold stage_two_reached, setattr.
  rewrite !lookup_insert. by repeat case_decide.
Qed.

(** X1: running the update a second time on the same history changes
    nothing more: outcome and object are those of the first run. *)
Theorem update_twice_is_update_once (self : t) :
  update_training_settings (update_training_settings self).2
  = update_training_settings self.
Proof.
  destruct (update_self self) as (r & w & Hout & Hself & Hall).
  rewrite Hself. cbn [snd]. rewrite Hall. f_equal. f_equal.
  destruct Hout; [done|apply graduated_twice|apply stage_two_twice|done].
Qed.

(** X2: an update never touches the history, the task name or the
    subject, and of the settings it can change only [next_task], [stage]
    and [reward_amount_ml]; [next_task] only after a Habituation session
    and [stage] only after a FollowTheLight session. *)
Theorem update_frame (self : t) :
  subject (update_training_settings self).2 = subject self
  ∧ last_task (update_training_settings self).2 = last_task self
  ∧ df (update_training_settings self).2 = df self
  ∧ (∀ k, k ≠ "next_task" → k ≠ "stage" → k ≠ "reward_amount_ml" →
       settings (update_training_settings self).2 !! k = settings self !! k)
  ∧ (last_task self ≠ "Habituation" →
       settings (update_training_settings self).2 !! "next_task"
       = settings self !! "next_task")
  ∧ (last_task self ≠ "FollowTheLight" →
       settings (update_training_settings self).2 !! "stage"
       = settings self !! "stage").
Proof.
  destruct (update_self self) as (r & w & Hout & -> & _).
  cbn [snd with_settings subject last_task df settings].
  split; [done|]. split; [done|]. split; [done|].
  destruct Hout as [|Hh|Hf|s _ _]; cbn [id].
  - by repeat split.
  - split; [|split; [done|intros _; apply graduated_stage] ].
    intros k ? ? ?. unfold habituation_graduated, setattr.
    by rewrite !lookup_insert_ne.
  - split; [|split; [intros _; apply stage_two_next_task|done] ].
    intros k ? ? ?. unfold stage_two_reached, setattr.
    by rewrite !lookup_insert_ne.
  - by repeat split.
Qed.

Lemma two_most_recent_unique {A} (older older' : list A) (prev prev' last last' : A) :
  older ++ [prev; last] = older' ++ [prev'; last'] → prev = prev' ∧ last = last'.
Proof.
  intros H. apply app_inj_2 in H as [_ H]; [|done]. by injection H.
Qed.

(** X3: an update raises [IndexError] exactly when the rule it applies
    consults a session whose trial column is empty: the most recent
    Habituation row after a Habituation session, one of the two most
    recent FollowTheLight rows after a FollowTheLight session, with at
    least two rows of the task recorded.  An older session without
    trials does not make it raise.  Whenever it raises, the exception is
    [IndexError] and the object is exactly as it was before the call. *)
Theorem update_raises_iff_consulted_session_empty (self : t) :
  ((update_training_settings self).1 = Raise IndexError ↔
     (last_task self = "Habituation"
      ∧ ∃ older prev last,
          rows_of_task "Habituation" (df self) = older ++ [prev; last]
          ∧ trial last = [])
     ∨ (last_task self = "FollowTheLight"
        ∧ ∃ older prev last,
            rows_of_task "FollowTheLight" (df self) = older ++ [prev; last]
            ∧ (trial last = [] ∨ trial prev = [])))
  ∧ (∀ e, (update_training_settings self).1 = Raise e →
          e = IndexError ∧ (update_training_settings self).2 = self).
Proof.
  split; [split|].
  - intros Hraise.
    destruct (String.eqb_spec (last_task self) "Habituation") as [Hh|Hh].
    + left. split; [done|].
      destruct (le_lt_dec 2 (length (rows_of_task "Habituation" (df self))))
        as [Hlen|Hlen].
      * destruct (two_most_recent _ Hlen) as (older & prev & last & Hrows).
        exists older, prev, last. split; [done|].
        rewrite (update_habituation self older prev last Hh Hrows) in Hraise.
        destruct (iloc (trial last) (-1)) as [n|e] eqn:Hn.
        -- by destruct (100 <=? n).
        -- by apply iloc_last_raises in Hn as [_ ?].
      * rewrite <- (with_settings_same self) in Hraise.
        rewrite update_skips in Hraise; [done|]. left. by rewrite Hh.
    + destruct (String.eqb_spec (last_task self) "FollowTheLight") as [Hf|Hf].
      * right. split; [done|].
        destruct (le_lt_dec 2 (length (rows_of_task "FollowTheLight" (df self))))
          as [Hlen|Hlen].
        -- destruct (two_most_recent _ Hlen) as (older & prev & last & Hrows).
           exists older, prev, last. split; [done|].
           rewrite (update_follow_the_light self older prev last Hf Hrows)
             in Hraise.
           destruct (iloc (trial last) (-1)) as [n|e] eqn:Hn.
           ++ destruct (iloc (trial prev) (-1)) as [m|e] eqn:Hm.
              ** by match type of Hraise with
                    | context [if ?c then _ else _] => destruct c
                    end.
              ** right. by apply iloc_last_raises in Hm as [_ ?].
           ++ left. by apply iloc_last_raises in Hn as [_ ?].
        -- rewrite <- (with_settings_same self) in Hraise.
           rewrite update_skips in Hraise; [done|]. left. by rewrite Hf.
      * rewrite <- (with_settings_same self) in Hraise.
        rewrite update_skips in Hraise; [done|]. by right.
  - intros [ [Hh (older & prev & last & Hrows & Hnil)]
           | [Hf (older & prev & last & Hrows & Hnil)] ].
    + rewrite (update_habituation self older prev last Hh Hrows).
      by rewrite Hnil, iloc_empty.
    + rewrite (update_follow_the_light self older prev last Hf Hrows).
      destruct Hnil as [Hnil|Hnil]; rewrite Hnil, iloc_empty; [done|].
      destruct (iloc (trial last) (-1)) as [n|e] eqn:Hn; [done|].
      by apply iloc_last_raises in Hn as [-> _].
  - intros e. destruct (update_self self) as (r & w & Hout & -> & _).
    cbn [fst snd]. intros ->. inversion Hout; subst.
    split; [done|apply with_settings_same].
Qed.

Lemma update_raises_iff_consulted_session_empty_witness :
  let subject := with_settings default_settings (new_subject "m1") in
  let latest_empty :=
    with_history "Habituation"
      [session_of "Habituation" 30 0; session_of "Habituation" 0 0] subject in
  let older_empty :=
    with_history "Habituation"
      [session_of "Habituation" 0 0; session_of "Habituation" 30 0;
       session_of "Habituation" 120 0] subject in
  (update_training_settings latest_empty).1 = Raise IndexError
  ∧ (update_training_settings latest_empty).2 = latest_empty
  ∧ (update_training_settings older_empty).1 ≠ Raise IndexError
  ∧ (update_training_settings older_empty).1 = Ok tt.
Proof.
  intros subject latest_empty older_empty.
  destruct (update_raises_iff_consulted_session_empty latest_empty)
    as [Hiff Hkeep].
  destruct (update_raises_iff_consulted_session_empty older_empty)
    as [Hiff' _].
  assert (Hraise : (update_training_settings latest_empty).1 = Raise IndexError).
  { apply Hiff. left. split; [reflexivity|].
    exists [], (session_of "Habituation" 30 0), (session_of "Habituation" 0 0).
    split; reflexivity. }
  split; [exact Hraise|]. split; [exact (proj2 (Hkeep IndexError Hraise))|].
  split; [|vm_compute; reflexivity].
  intros Hr. apply Hiff' in Hr as [ [_ (older & prev & last & Hrows & Hnil)]
                                   | [Hf _] ]; [|discriminate Hf].
  change (rows_of_task "Habituation" (df older_empty))
    with ([session_of "Habituation" 0 0]
          ++ [session_of "Habituation" 30 0; session_of "Habituation" 120 0])
    in Hrows.
  apply two_most_recent_unique in Hrows as [_ <-]. discriminate Hnil.
Defined.

(** X4: after a Habituation session the outcome depends on the most
    recent Habituation row alone: two subjects with the same settings
    whose Habituation rows end with the same row, each with at least one
    row before it, get the same outcome and the same settings, whatever
    the earlier rows hold. *)
Theorem habituation_rule_reads_last_row
    (self self' : t) (older older' : list Session) (prev prev' last : Session) :
  last_task self = "Habituation" →
  last_task self' = "Habituation" →
  rows_of_task "Habituation" (df self) = older ++ [prev; last] →
  rows_of_task "Habituation" (df self') = older' ++ [prev'; last] →
  settings self = settings self' →
  (update_training_settings self).1 = (update_training_settings self').1
  ∧ settings (update_training_settings self).2
    = settings (update_training_settings self').2.
Proof.
  intros Hh Hh' Hrows Hrows' Hst.
  rewrite (update_habituation self older prev last Hh Hrows).
  rewrite (update_habituation self' older' prev' last Hh' Hrows').
  destruct (iloc (trial last) (-1)) as [n|e]; [|done].
  destruct (100 <=? n); cbn [fst snd with_settings settings]; by rewrite Hst.
Qed.

Lemma habituation_rule_reads_last_row_witness :
  let subject := with_settings default_settings (new_subject "m1") in
  let self :=
    with_history "Habituation"
      [session_of "Habituation" 0 0; session_of "Habituation" 120 0] subject in
  let self' :=
    with_history "Habituation"
      [session_of "Habituation" 500 0; session_of "FollowTheLight" 10 10;
       session_of "Habituation" 400 0; session_of "Habituation" 120 0]
      subject in
  last_task self = "Habituation"
  ∧ settings self = settings self'
  ∧ (update_training_settings self).1 = (update_training_settings self').1
  ∧ settings (update_training_settings self).2
    = settings (update_training_settings self').2
  ∧ settings (update_training_settings self).2 !! "next_task"
    = Some (VStr "FollowTheLight").
Proof.
  intros subject self self'.
  destruct (habituation_rule_reads_last_row self self'
              [] [session_of "Habituation" 500 0]
              (session_of "Habituation" 0 0) (session_of "Habituation" 400 0)
              (session_of "Habituation" 120 0)
              eq_refl eq_refl eq_refl eq_refl eq_refl) as [H1 H2].
  split; [reflexivity|]. split; [reflexivity|].
  split; [exact H1|]. split; [exact H2|]. vm_compute. reflexivity.
Defined.

(** X5: after a FollowTheLight session the outcome depends on the two
    most recent FollowTheLight rows alone. *)
Theorem discrimination_rule_reads_two_rows
    (self self' : t) (older older' : list Session) (prev last : Session) :
  last_task self = "FollowTheLight" →
  last_task self' = "FollowTheLight" →
  rows_of_task "FollowTheLight" (df self) = older ++ [prev; last] →
  rows_of_task "FollowTheLight" (df self') = older' ++ [prev; last] →
  settings self = settings self' →
  (update_training_settings self).1 = (update_training_settings self').1
  ∧ settings (update_training_settings self).2
    = settings (update_training_settings self').2.
Proof.
  intros Hf Hf' Hrows Hrows' Hst.
  rewrite (update_follow_the_light self older prev last Hf Hrows).
  rewrite (update_follow_the_light self' older' prev last Hf' Hrows').
  destruct (iloc (trial last) (-1)) as [n|e]; [|done].
  destruct (iloc (trial prev) (-1)) as [m|e]; [|done].
  match goal with |- context [if ?c then _ else _] => destruct c end;
    cbn [fst snd with_settings settings]; by rewrite Hst.
Qed.

Lemma discrimination_rule_reads_two_rows_witness :
  let subject := with_settings default_settings (new_subject "m1") in
  let prev := session_of "FollowTheLight" 110 99 in
  let last := session_of "FollowTheLight" 150 131 in
  let self := with_history "FollowTheLight" [prev; last] subject in
  let self' :=
    with_history "FollowTheLight"
      [session_of "FollowTheLight" 200 0; session_of "Habituation" 120 0;
       prev; session_of "Habituation" 5 0; last] subject in
  last_task self = "FollowTheLight"
  ∧ (update_training_settings self).1 = (update_training_settings self').1
  ∧ settings (update_training_settings self).2
    = settings (update_training_settings self').2
  ∧ settings (update_training_settings self').2 !! "stage" = Some (VInt 2).
Proof.
  intros subject prev last self self'.
  destruct (discrimination_rule_reads_two_rows self self'
              [] [session_of "FollowTheLight" 200 0] prev last
              eq_refl eq_refl eq_refl eq_refl eq_refl) as [H1 H2].
  split; [reflexivity|]. split; [exact H1|]. split; [exact H2|].
  vm_compute. reflexivity.
Defined.

(** X6: a rule that fires writes its own reward volume whatever the
    volume was: graduating from Habituation sets [reward_amount_ml] to
    0.07 and leaves [stage] alone, so a subject on a smaller volume (such
    as the 0.05 of stage 2) has its reward raised. *)
Theorem graduation_resets_reward
    (self : t) (older : list Session) (prev last : Session) (r : float) :
  last_task self = "Habituation" →
  rows_of_task "Habituation" (df self) = older ++ [prev; last] →
  well_numbered last →
  (100 ≤ trial_count last)%nat →
  settings self !! "reward_amount_ml" = Some (VFloat r) →
  settings (update_training_settings self).2 !! "reward_amount_ml"
    = Some (VFloat 0.07)
  ∧ settings (update_training_settings self).2 !! "stage"
    = settings self !! "stage"
  ∧ (PrimFloat.ltb r 0.07 = true →
     ∃ r', settings (update_training_settings self).2 !! "reward_amount_ml"
             = Some (VFloat r')
           ∧ PrimFloat.ltb r r' = true).
Proof.
  intros Hh Hrows Hnum Hcount Hr.
  rewrite (update_habituation self older prev last Hh Hrows).
  rewrite (last_trial_number last Hnum).
  rewrite decide_False by lia.
  replace (100 <=? Z.of_nat (trial_count last)) with true
    by (symmetry; apply Z.leb_le; lia).
  cbn [snd with_settings settings].
  split; [apply graduated_reward|]. split; [apply graduated_stage|].
  intros Hlt. exists 0.07%float. split; [apply graduated_reward|done].
Qed.

Lemma graduation_resets_reward_witness :
  let self :=
    with_history "Habituation"
      [session_of "Habituation" 30 0; session_of "Habituation" 120 0]
      (with_settings stage_two_settings (new_subject "m1")) in
  settings self !! "reward_amount_ml" = Some (VFloat 0.05)
  ∧ settings self !! "stage" = Some (VInt 2)
  ∧ settings (update_training_settings self).2 !! "reward_amount_ml"
    = Some (VFloat 0.07)
  ∧ settings (update_training_settings self).2 !! "stage" = Some (VInt 2).
Proof.
  intros self.
  assert (Hr : settings self !! "reward_amount_ml" = Some (VFloat 0.05))
    by (vm_compute; reflexivity).
  assert (Hs : settings self !! "stage" = Some (VInt 2))
    by (vm_compute; reflexivity).
  assert (Hc : (100 ≤ trial_count (session_of "Habituation" 120 0))%nat)
    by (vm_compute; lia).
  destruct (graduation_resets_reward self [] (session_of "Habituation" 30 0)
              (session_of "Habituation" 120 0) 0.05%float
              eq_refl eq_refl eq_refl Hc Hr) as (H1 & H2 & _).
  split; [exact Hr|]. split; [exact Hs|]. split; [exact H1|].
  rewrite H2. exact Hs.
Defined.

End ControllerMore.

(** * Further properties of the Habituation task *)

Section HabituationMore.
Import Habituation.

Ltac run_habituation H :=
  cbv [start create_trial after_trial mbind M_bind bind setting get lift_result
       getattr attr modify add_state register_value mret M_ret ret raise
       set_left_valve_opening_time set_right_valve_opening_time
       fresh_trial new_task
       settings water_calibration left_valve_opening_time
       right_valve_opening_time bpod registered] in H.

Ltac split_cases H :=
  repeat match type of H with
         | context [match ?x with _ => _ end] =>
             lazymatch x with
             | context [match _ with _ => _ end] => fail
             | _ => destruct x eqn:?
             end
         end.

(** X7: [start] succeeds exactly when the reward volume is set and both
    side ports are calibrated for it; whenever that holds it succeeds and
    stores the two calibrated opening times.  When it fails, a following
    [create_trial] does not build a graph. *)
Theorem habituation_start_needs_calibration
    (st : gmap string value) (cal : WaterCalibration) :
  ((start (new_task st cal)).1 = Ok tt ↔
     ∃ volume left right,
       st !! "reward_amount_ml" = Some volume
       ∧ get_valve_time cal 1 volume = Ok left
       ∧ get_valve_time cal 3 volume = Ok right)
  ∧ (∀ volume left right,
       st !! "reward_amount_ml" = Some volume →
       get_valve_time cal 1 volume = Ok left →
       get_valve_time cal 3 volume = Ok right →
       (start (new_task st cal)).1 = Ok tt
       ∧ left_valve_opening_time (start (new_task st cal)).2 = Some left
       ∧ right_valve_opening_time (start (new_task st cal)).2 = Some right)
  ∧ ((start (new_task st cal)).1 ≠ Ok tt →
     (create_trial (fresh_trial (start (new_task st cal)).2)).1 ≠ Ok tt).
Proof.
  remember (start (new_task st cal)) as r eqn:H. run_habituation H.
  split_cases H; subst r;
    cbn [fst snd left_valve_opening_time right_valve_opening_time];
    (split; [split|split]).
  all: first
    [ solve [intros [=]]
    | solve [intros (? & ? & ? & ? & ? & ?); congruence]
    | solve [intros; congruence]
    | solve [intros _; do 3 eexists; split; [reflexivity|];
             split; eassumption]
    | solve [intros ? ? ? ? ? ?; simplify_eq;
             split; [reflexivity|split; congruence] ]
    | solve [intros Hne; by destruct Hne]
    | intros _ Hok; remember (create_trial _) as c eqn:Hc; run_habituation Hc;
      split_cases Hc; subst c; discriminate Hok ].
Qed.

Lemma habituation_start_needs_calibration_witness :
  default_settings !! "reward_amount_ml" = Some (VFloat 0.08)
  ∧ get_valve_time calibrated 1 (VFloat 0.08) = Ok (VFloat 0.05)
  ∧ get_valve_time calibrated 3 (VFloat 0.08) = Ok (VFloat 0.05)
  ∧ (start (new_task default_settings calibrated)).1 = Ok tt
  ∧ left_valve_opening_time (start (new_task default_settings calibrated)).2
    = Some (VFloat 0.05)
  ∧ (start (new_task default_settings left_only)).1
    = Raise (CalibrationError 3)
  ∧ (create_trial
       (fresh_trial (start (new_task default_settings left_only)).2)).1
    ≠ Ok tt.
Proof.
  assert (Hv : default_settings !! "reward_amount_ml" = Some (VFloat 0.08))
    by (vm_compute; reflexivity).
  destruct (habituation_start_needs_calibration default_settings calibrated)
    as (_ & Hgood & _).
  destruct (Hgood (VFloat 0.08) (VFloat 0.05) (VFloat 0.05) Hv eq_refl eq_refl)
    as (Hok & Hleft & _).
  destruct (habituation_start_needs_calibration default_settings left_only)
    as (_ & _ & Hbad).
  assert (Hfail : (start (new_task default_settings left_only)).1
                  = Raise (CalibrationError 3)) by (vm_compute; reflexivity).
  split; [exact Hv|]. split; [reflexivity|]. split; [reflexivity|].
  split; [exact Hok|]. split; [exact Hleft|]. split; [exact Hfail|].
  apply Hbad. rewrite Hfail. discriminate.
Defined.

(** Stepping a run: look the current state up, search its conditions
    for the event. *)
Ltac look_up :=
  repeat match goal with
         | |- context [find_state ?g ?n] =>
             let r := eval cbv [find_state List.find state_name String.eqb
                                Ascii.eqb Bool.eqb] in (find_state g n) in
             change (find_state g n) with r
         end.

Ltac step_run :=
  cbn [visited_from completes_from List.filter]; look_up; cbv beta iota;
  unfold next_state;
  cbn [state_change_conditions output_actions List.find fst snd event_name
       fmap option_fmap option_map opens_valve existsb orb length];
  cbv beta iota.

Section HabituationRun.
Variables (high left right : value).

Local Abbreviation g :=
  [ {| state_name := "ready_to_initiate";
       state_timer := VInt 0;
       state_change_conditions := [(Port2In, "stimulus_state")];
       output_actions := [Level PWM2 high] |};
    {| state_name := "stimulus_state";
       state_timer := VInt 0;
       state_change_conditions :=
         [(Port1In, "reward_state_left"); (Port3In, "reward_state_right")];
       output_actions := [Level PWM1 high; Level PWM3 high] |};
    {| state_name := "reward_state_left";
       state_timer := left;
       state_change_conditions := [(Tup, "exit")];
       output_actions := [Switch Valve1] |};
    {| state_name := "reward_state_right";
       state_timer := right;
       state_change_conditions := [(Tup, "exit")];
       output_actions := [Switch Valve3] |} ].





End HabituationRun.



(** X9: [create_trial] builds its four states exactly when
    [light_intensity_high] is set and [start] has stored both opening
    times; otherwise it raises and leaves fewer than four states. *)
Theorem habituation_create_trial_outcome (self : t) :
  ((create_trial (fresh_trial self)).1 = Ok tt ↔
     is_Some (settings self !! "light_intensity_high")
     ∧ is_Some (left_valve_opening_time self)
     ∧ is_Some (right_valve_opening_time self))
  ∧ ((create_trial (fresh_trial self)).1 = Ok tt →
     length (bpod (create_trial (fresh_trial self)).2) = 4%nat)
  ∧ ((create_trial (fresh_trial self)).1 ≠ Ok tt →
     (length (bpod (create_trial (fresh_trial self)).2) < 4)%nat).
Proof.
  destruct self. remember (create_trial _) as r eqn:H. run_habituation H.
  split_cases H; subst r; cbn [fst snd bpod length app settings
    left_valve_opening_time right_valve_opening_time]; (split; [split|split]).
  all: first
    [ solve [intros [=]]
    | solve [intros (Ha & Hb & Hc); destruct Ha, Hb, Hc; congruence]
    | solve [intros _; repeat split; eauto]
    | solve [intros Hne; by destruct Hne]
    | solve [intros; cbn; lia]
    | solve [intros; reflexivity] ].
Qed.

End HabituationMore.

(** * Further properties of the discrimination task *)

Section DiscriminationMore.
Import FollowTheLight.

Ltac run_method H :=
  cbv [start create_trial after_trial mbind M_bind bind setting get lift_result
       getattr attr modify add_state register_value mret M_ret ret raise
       random_choice append_stimulus_state_output
       set_left_valve_opening_time set_right_valve_opening_time
       set_punish_condition set_this_trial_type set_stimulus_state_output
       set_left_poke_action set_right_poke_action set_valve_to_open
       set_valve_opening_time fresh_trial new_task with_events
       settings water_calibration left_valve_opening_time
       right_valve_opening_time punish_condition this_trial_type
       stimulus_state_output left_poke_action right_poke_action valve_to_open
       valve_opening_time bpod trial_data registered] in H.

Ltac split_cases H :=
  repeat match type of H with
         | context [match ?x with _ => _ end] =>
             lazymatch x with
             | context [match _ with _ => _ end] => fail
             | _ => destruct x eqn:?
             end
         end.

(** As long as [start] has not chosen the target of an incorrect
    response, [create_trial] fails, and it leaves that target and the
    action of a right poke unset. *)
Lemma create_trial_without_wiring
    (st : gmap string value) (rnd : nat) (self : t) :
  punish_condition self = None →
  right_poke_action self = None →
  (create_trial rnd (fresh_trial st self)).1 ≠ Ok tt
  ∧ punish_condition (create_trial rnd (fresh_trial st self)).2 = None
  ∧ right_poke_action (create_trial rnd (fresh_trial st self)).2 = None.
Proof.
  intros Hpc Hr. destruct self. cbn in Hpc, Hr. subst.
  remember (create_trial _ _) as r eqn:H. run_method H.
  split_cases H; subst r; cbn [fst snd punish_condition right_poke_action];
    by repeat split.
Qed.

Lemma attempts_without_wiring
    (trials : list (nat * gmap string value)) (self : t) :
  punish_condition self = None →
  right_poke_action self = None →
  punish_condition (attempts self trials) = None
  ∧ right_poke_action (attempts self trials) = None.
Proof.
  revert self. induction trials as [|[rnd st] rest IH]; intros self Hpc Hr;
    [done|].
  cbn [attempts].
  destruct (create_trial_without_wiring st rnd self Hpc Hr) as (_ & ? & ?).
  by apply IH.
Qed.

(** X10: [start] succeeds exactly when the reward volume and the stage
    are set and both side ports are calibrated for that volume.  When it
    fails, no [create_trial] ever builds a graph on that object, however
    many calls are made and whatever entropy and settings are in effect
    at each. *)
Theorem start_needs_calibration_and_stage
    (st : gmap string value) (cal : WaterCalibration) :
  ((start (new_task st cal)).1 = Ok tt ↔
     ∃ volume left right stage,
       st !! "reward_amount_ml" = Some volume
       ∧ get_valve_time cal 1 volume = Ok left
       ∧ get_valve_time cal 3 volume = Ok right
       ∧ st !! "stage" = Some stage)
  ∧ ((start (new_task st cal)).1 ≠ Ok tt →
     ∀ earlier rnd st',
       (create_trial rnd
          (fresh_trial st' (attempts (start (new_task st cal)).2 earlier))).1
       ≠ Ok tt).
Proof.
  remember (start (new_task st cal)) as r eqn:H. run_method H.
  split_cases H; subst r; cbn [fst snd]; (split; [split|]).
  all: first
    [ solve [intros [=]]
    | solve [intros (? & ? & ? & ? & ? & ? & ? & ?); congruence]
    | solve [intros _; do 4 eexists; split; [reflexivity|];
             split; [eassumption|]; split; [eassumption|]; reflexivity]
    | solve [intros _; reflexivity]
    | solve [intros Hne; by destruct Hne]
    | intros _ earlier rnd st';
      match goal with
      | |- context [attempts ?failed earlier] =>
          destruct (attempts_without_wiring earlier failed eq_refl eq_refl)
            as [Hpc Hr];
          exact (proj1 (create_trial_without_wiring st' rnd _ Hpc Hr))
      end ].
Qed.

Lemma start_needs_calibration_and_stage_witness :
  let failed := (start (new_task runnable_settings left_only)).2 in
  let earlier := [(0%nat, runnable_settings); (1%nat, runnable_settings)] in
  let unsided := setattr "trial_types" (VList ["catch"]) runnable_settings in
  (start (new_task runnable_settings calibrated)).1 = Ok tt
  ∧ (start (new_task runnable_settings left_only)).1 = Raise (CalibrationError 3)
  ∧ left_poke_action (attempts failed earlier) = Some "reward_state"
  ∧ (create_trial 0 (fresh_trial unsided (attempts failed earlier))).1 ≠ Ok tt.
Proof.
  intros failed earlier unsided.
  destruct (start_needs_calibration_and_stage runnable_settings calibrated)
    as [Hiff _].
  destruct (start_needs_calibration_and_stage runnable_settings left_only)
    as [_ Hnever].
  assert (Hfail : (start (new_task runnable_settings left_only)).1
                  = Raise (CalibrationError 3)) by (vm_compute; reflexivity).
  split.
  { apply Hiff. exists (VFloat 0.08), (VFloat 0.05), (VFloat 0.05), (VInt 1).
    split; [vm_compute; reflexivity|]. split; [reflexivity|].
    split; [reflexivity|vm_compute; reflexivity]. }
  split; [exact Hfail|]. split; [vm_compute; reflexivity|].
  apply Hnever. rewrite Hfail. discriminate.
Defined.

(** X11: a trial type that contains neither "left" nor "right" lights no
    port in the stimulus state and takes its side targets, its valve and
    its opening time from the previous trial.  Drawn as the first trial
    after [start] it builds no graph: it raises [AttributeError], for
    [left_poke_action] when [light_intensity_high] and
    [timer_for_response] are set. *)
Theorem unsided_trial_reuses_previous_trial
    (st : gmap string value) (rnd : nat) (types : list string) (kind : string) :
  st !! "trial_types" = Some (VList types) →
  types !! (rnd `mod` length types)%nat = Some kind →
  str_contains "left" kind = false →
  str_contains "right" kind = false →
  (∀ prior built,
     create_trial rnd (fresh_trial st prior) = (Ok tt, built) →
     this_trial_type built = Some kind
     ∧ ∃ high timer la ra opening valve punishment iti,
         left_poke_action prior = Some la
         ∧ right_poke_action prior = Some ra
         ∧ valve_to_open prior = Some valve
         ∧ valve_opening_time prior = Some opening
         ∧ bpod built
           = trial_graph high timer la ra [] opening valve punishment iti)
  ∧ (∀ st0 cal started,
       start (new_task st0 cal) = (Ok tt, started) →
       (∃ name, (create_trial rnd (fresh_trial st started)).1
                = Raise (AttributeError name))
       ∧ (is_Some (st !! "light_intensity_high") →
          is_Some (st !! "timer_for_response") →
          (create_trial rnd (fresh_trial st started)).1
          = Raise (AttributeError "left_poke_action"))).
Proof.
  intros Htypes Hdraw Hl Hr. split.
  - intros prior built H. destruct prior. run_method H.
    rewrite Htypes, Hdraw, Hl, Hr in H.
    split_cases H; try discriminate H; injection H as <-.
    split; [reflexivity|]. do 8 eexists. by repeat split.
  - intros st0 cal started Hstart.
    run_method Hstart. split_cases Hstart; try discriminate Hstart;
      injection Hstart as <-.
    all: remember (create_trial _ _) as r eqn:H; run_method H;
      rewrite Htypes, Hdraw, Hl, Hr in H;
      split_cases H; subst r; cbn [fst].
    all: split; [by eexists|].
    all: intros [? ?] [? ?]; congruence.
Qed.

Lemma unsided_trial_reuses_previous_trial_witness :
  let st := setattr "trial_types" (VList ["left_easy"; "catch"]) stage_two_settings in
  let started := (start (new_task st calibrated)).2 in
  let first := (create_trial 0 (fresh_trial st started)).2 in
  let second := (create_trial 1 (fresh_trial st first)).2 in
  st !! "trial_types" = Some (VList ["left_easy"; "catch"])
  ∧ create_trial 1 (fresh_trial st first) = (Ok tt, second)
  ∧ this_trial_type second = Some "catch"
  ∧ (∃ high timer opening punishment iti,
       bpod second = trial_graph high timer "reward_state" "punish_state" []
                       opening Valve1 punishment iti)
  ∧ (create_trial 1 (fresh_trial st started)).1
    = Raise (AttributeError "left_poke_action").
Proof.
  intros st started first second.
  assert (Htypes : st !! "trial_types" = Some (VList ["left_easy"; "catch"]))
    by (vm_compute; reflexivity).
  assert (Hb : create_trial 1 (fresh_trial st first) = (Ok tt, second))
    by (vm_compute; reflexivity).
  assert (Hs : start (new_task st calibrated) = (Ok tt, started))
    by (vm_compute; reflexivity).
  destruct (unsided_trial_reuses_previous_trial st 1 ["left_easy"; "catch"]
              "catch" Htypes eq_refl eq_refl eq_refl) as [Hreuse Hfirst].
  destruct (Hreuse first second Hb)
    as (Hk & high & timer & la & ra & opening & valve & punishment & iti
          & Hla & Hra & Hv & _ & Hg).
  assert (la = "reward_state") as -> by (vm_compute in Hla; congruence).
  assert (ra = "punish_state") as -> by (vm_compute in Hra; congruence).
  assert (valve = Valve1) as -> by (vm_compute in Hv; congruence).
  split; [exact Htypes|]. split; [exact Hb|]. split; [exact Hk|].
  split; [by eauto 6|].
  apply (proj2 (Hfirst st calibrated started Hs)); eexists; vm_compute; reflexivity.
Defined.

(** X12: a successful [create_trial] adds the five states in the order
    ready, stimulus, reward, punish, inter-trial interval; a failed one
    leaves a strict prefix of them in the state machine. *)
Theorem create_trial_states (st : gmap string value) (rnd : nat) (self : t) :
  let names := ["ready_to_initiate"; "stimulus_state"; "reward_state";
                "punish_state"; "iti_state"] in
  ((create_trial rnd (fresh_trial st self)).1 = Ok tt →
     state_names (bpod (create_trial rnd (fresh_trial st self)).2) = names)
  ∧ ((create_trial rnd (fresh_trial st self)).1 ≠ Ok tt →
     ∃ n, (n < 5)%nat
          ∧ state_names (bpod (create_trial rnd (fresh_trial st self)).2)
            = take n names).
Proof.
  intros names. destruct self.
  remember (create_trial _ _) as r eqn:H. run_method H.
  split_cases H; subst r; cbn [fst snd]; split.
  all: first
    [ solve [intros [=]]
    | solve [intros _; reflexivity]
    | solve [intros Hne; by destruct Hne]
    | solve [intros _; exists 0%nat; split; [lia|reflexivity] ]
    | solve [intros _; exists 1%nat; split; [lia|reflexivity] ]
    | solve [intros _; exists 2%nat; split; [lia|reflexivity] ]
    | solve [intros _; exists 3%nat; split; [lia|reflexivity] ]
    | solve [intros _; exists 4%nat; split; [lia|reflexivity] ] ].
Qed.

End DiscriminationMore.

Section DiscriminationRun.
Import FollowTheLight.

Ltac run_method H :=
  cbv [start create_trial after_trial mbind M_bind bind setting get lift_result
       getattr attr modify add_state register_value mret M_ret ret raise
       random_choice append_stimulus_state_output
       set_left_valve_opening_time set_right_valve_opening_time
       set_punish_condition set_this_trial_type set_stimulus_state_output
       set_left_poke_action set_right_poke_action set_valve_to_open
       set_valve_opening_time fresh_trial new_task with_events
       settings water_calibration left_valve_opening_time
       right_valve_opening_time punish_condition this_trial_type
       stimulus_state_output left_poke_action right_poke_action valve_to_open
       valve_opening_time bpod trial_data registered] in H.

Ltac split_cases H :=
  repeat match type of H with
         | context [match ?x with _ => _ end] =>
             lazymatch x with
             | context [match _ with _ => _ end] => fail
             | _ => destruct x eqn:?
             end
         end.

Ltac look_up :=
  repeat match goal with
         | |- context [find_state ?g ?n] =>
             let r := eval cbv [find_state List.find state_name String.eqb
                                Ascii.eqb Bool.eqb trial_graph] in (find_state g n) in
             change (find_state g n) with r
         end.

Ltac step_run :=
  cbn [visited_from completes_from List.filter]; look_up; cbv beta iota;
  unfold next_state;
  cbn [state_change_conditions output_actions List.find fst snd event_name
       fmap option_fmap option_map opens_valve existsb orb length];
  cbv beta iota.

Ltac settle :=
  cbn [fmap option_fmap option_map fst snd]; cbv beta iota;
  repeat match goal with
         | |- context [String.eqb ?a ?b] =>
             let r := eval cbv in (String.eqb a b) in
             lazymatch r with
             | true => change (String.eqb a b) with true
             | false => change (String.eqb a b) with false
             end
         end;
  cbv beta iota.

Section Wiring.
Variables (high timer : value) (la ra : string) (outputs : list output_action)
          (opening : value) (punishment iti : value).

Local Abbreviation g valve :=
  (trial_graph high timer la ra outputs opening valve punishment iti).

Lemma iti_run (valve : Output) (log : list string) :
  openings_from (g valve) "iti_state" log = 0%nat.
Proof.
  unfold openings_from. induction log as [|ev rest IH]; [reflexivity|].
  step_run. destruct (String.eqb "Tup" ev); settle; [reflexivity|exact IH].
Qed.

Lemma punish_run (valve : Output) (log : list string) :
  openings_from (g valve) "punish_state" log = 0%nat.
Proof.
  unfold openings_from. induction log as [|ev rest IH]; [reflexivity|].
  step_run. destruct (String.eqb "Tup" ev); settle; [|exact IH].
  step_run. apply iti_run.
Qed.

Lemma reward_run (valve : Output) (log : list string) :
  openings_from (g valve) "reward_state" log
  = if opens_valve {| state_name := "reward_state"; state_timer := opening;
                      state_change_conditions := [(Tup, "iti_state")];
                      output_actions := [Switch valve] |}
    then 1%nat else 0%nat.
Proof.
  unfold openings_from. destruct valve;
    (induction log as [|ev rest IH]; [reflexivity|]);
    step_run; (destruct (String.eqb "Tup" ev); settle; [|exact IH]);
    step_run; cbn [length]; try f_equal; apply iti_run.
Qed.

End Wiring.

Ltac fold_openings :=
  repeat match goal with
         | |- context [length (List.filter ?f (visited_from ?g ?s ?l))] =>
             change (length (List.filter f (visited_from g s l)))
               with (openings_from g s l)
         end.

Lemma lights_open_no_valve (outputs : list output_action) :
  Forall (λ a, ∃ o v, a = Level o v) outputs →
  existsb (λ a, match a with
                | Switch Valve1 | Switch Valve3 => true
                | _ => false
                end) outputs = false.
Proof.
  induction 1 as [|a l (o & v & ->) _ IH]; [reflexivity|]. cbn. exact IH.
Qed.

(** From the stimulus state the valve opens at most once, however the
    two side entries are wired. *)
Lemma stimulus_run_at_most_once
    (pc la ra : string) (high timer : value) (outputs : list output_action)
    (opening : value) (valve : Output) (punishment iti : value)
    (log : list string) :
  Forall (λ a, ∃ o v, a = Level o v) outputs →
  side_targets pc la ra →
  pc = "stimulus_state" ∨ pc = "punish_state" →
  (openings_from (trial_graph high timer la ra outputs opening valve punishment iti)
     "stimulus_state" log ≤ 1)%nat.
Proof.
  intros Hout%lights_open_no_valve Hside Hpc.
  assert (Hreward : ∀ l,
            (openings_from (trial_graph high timer la ra outputs opening valve
                              punishment iti) "reward_state" l ≤ 1)%nat).
  { intros l. rewrite reward_run. destruct (opens_valve _); lia. }
  unfold openings_from.
  destruct Hside as [[-> ->]|[-> ->] ], Hpc as [->| ->];
    (induction log as [|ev rest IH];
     [step_run; rewrite Hout; cbn [length]; lia|]);
    step_run;
    (destruct (String.eqb "Port1In" ev); settle;
     [|destruct (String.eqb "Port3In" ev); settle;
       [|destruct (String.eqb "Tup" ev); settle] ]);
    step_run; rewrite ?Hout; fold_openings;
    first [ exact IH | apply Hreward | rewrite punish_run; lia | cbn; lia ].
Qed.

Lemma ready_run_at_most_once
    (pc la ra : string) (high timer : value) (outputs : list output_action)
    (opening : value) (valve : Output) (punishment iti : value)
    (log : list string) :
  Forall (λ a, ∃ o v, a = Level o v) outputs →
  side_targets pc la ra →
  pc = "stimulus_state" ∨ pc = "punish_state" →
  (openings_from (trial_graph high timer la ra outputs opening valve punishment iti)
     "ready_to_initiate" log ≤ 1)%nat.
Proof.
  intros Hout Hside Hpc.
  pose proof (stimulus_run_at_most_once pc la ra high timer outputs opening
                valve punishment iti) as Hstim.
  unfold openings_from.
  induction log as [|ev rest IH]; [step_run; cbn [length]; lia|].
  step_run. destruct (String.eqb "Port2In" ev); settle; [|exact IH].
  step_run. fold_openings. by apply Hstim.
Qed.

(** The stimulus state of a trial lights ports and opens no valve. *)
Lemma create_trial_lights_only
    (st : gmap string value) (rnd : nat) (self built : t) :
  create_trial rnd (fresh_trial st self) = (Ok tt, built) →
  ∃ high timer la ra outputs opening valve punishment iti,
    bpod built = trial_graph high timer la ra outputs opening valve punishment iti
    ∧ Forall (λ a, ∃ o v, a = Level o v) outputs.
Proof.
  intros H. destruct self. run_method H.
  split_cases H; try discriminate H; injection H as <-.
  all: do 9 eexists; split; [reflexivity|].
  all: repeat apply Forall_cons_2; try apply Forall_nil_2; by eauto.
Qed.

(** X14: in no trial of a session does the valve open more than once,
    whatever the mouse does and whichever stage wired the session. *)
Theorem valve_opens_at_most_once
    (st : gmap string value) (cal : WaterCalibration) (started built : t)
    (trials : list (nat * gmap string value)) (log : list string) :
  start (new_task st cal) = (Ok tt, started) →
  built ∈ session_trials started trials →
  (valve_openings (bpod built) log ≤ 1)%nat.
Proof.
  intros Hstart Hin.
  destruct (start_wires st cal started Hstart) as (stage & _ & Hw).
  destruct (session_trials_wired _ trials started built Hw Hin)
    as (rnd & st' & prior & Hprior & Hrun).
  destruct (create_trial_wires _ st' rnd prior built Hprior Hrun)
    as (_ & kind & high & timer & la & ra & outputs & opening & valve
          & punishment & iti & _ & _ & Hg & Hside & _).
  destruct (create_trial_lights_only st' rnd prior built Hrun)
    as (high' & timer' & la' & ra' & outputs' & opening' & valve'
          & punishment' & iti' & Hg' & Hlights).
  rewrite Hg in Hg'. unfold trial_graph in Hg'. simplify_eq.
  rewrite Hg.
  apply (ready_run_at_most_once
           (if py_eq_int stage 1 then "stimulus_state" else "punish_state"));
    [done|done|].
  destruct (py_eq_int stage 1); [by left|by right].
Qed.

Lemma valve_opens_at_most_once_witness :
  let started := (start (new_task runnable_settings calibrated)).2 in
  let trials := [(0%nat, runnable_settings)] in
  let built := (create_trial 0 (fresh_trial runnable_settings started)).2 in
  let log := ["Port2In"; "Port3In"; "Port3In"; "Port1In"; "Port1In"; "Tup"; "Tup"] in
  start (new_task runnable_settings calibrated) = (Ok tt, started)
  ∧ built ∈ session_trials started trials
  ∧ visited (bpod built) log
    = ["ready_to_initiate"; "stimulus_state"; "stimulus_state";
       "stimulus_state"; "reward_state"; "iti_state"]
  ∧ (valve_openings (bpod built) log ≤ 1)%nat.
Proof.
  intros started trials built log.
  assert (Hs : start (new_task runnable_settings calibrated) = (Ok tt, started))
    by (vm_compute; reflexivity).
  assert (Hin : built ∈ session_trials started trials)
    by (vm_compute; apply list_elem_of_here).
  split; [exact Hs|]. split; [exact Hin|]. split; [vm_compute; reflexivity|].
  exact (valve_opens_at_most_once runnable_settings calibrated started built
           trials log Hs Hin).
Defined.

(** A trial whose type names a side: the reward is on that side, the
    valve is that side's, and the other side leads to the target of an
    incorrect response. *)
Lemma create_trial_sided
    (pc : string) (st : gmap string value) (rnd : nat) (self built : t)
    (kind : string) :
  punish_condition self = Some pc →
  create_trial rnd (fresh_trial st self) = (Ok tt, built) →
  this_trial_type built = Some kind →
  str_contains "left" kind || str_contains "right" kind = true →
  settings built = st
  ∧ registered built = []
  ∧ ∃ high timer outputs opening punishment iti,
      Forall (λ a, ∃ o v, a = Level o v) outputs
      ∧ bpod built
        = if str_contains "left" kind
          then trial_graph high timer "reward_state" pc outputs opening Valve1
                 punishment iti
          else trial_graph high timer pc "reward_state" outputs opening Valve3
                 punishment iti.
Proof.
  intros Hpc H Hk Hsided. destruct self. cbn in Hpc. subst.
  run_method H. split_cases H; try discriminate H; injection H as <-.
  all: cbn in Hk; injection Hk as <-.
  all: try (rewrite Heqb, ?Heqb0 in Hsided; discriminate Hsided).
  all: (split; [reflexivity|]); (split; [reflexivity|]).
  all: do 6 eexists; rewrite ?Heqb, ?Heqb0.
  all: (split; [|reflexivity]).
  all: repeat apply Forall_cons_2; try apply Forall_nil_2; by eauto.
Qed.

Section Punished.
Variables (high timer : value) (outputs : list output_action)
          (opening punishment iti : value).
Hypothesis lights : Forall (λ a, ∃ o v, a = Level o v) outputs.

Local Abbreviation left_graph :=
  (trial_graph high timer "reward_state" "punish_state" outputs opening Valve1
     punishment iti).
Local Abbreviation right_graph :=
  (trial_graph high timer "punish_state" "reward_state" outputs opening Valve3
     punishment iti).
Local Abbreviation sides := ["Port1In"; "Port3In"].

Lemma not_a_side (ev : string) :
  String.eqb "Port1In" ev = false → String.eqb "Port3In" ev = false →
  ∀ rest, find_first_occurrence (ev :: rest) sides
          = find_first_occurrence rest sides.
Proof.
  intros H1 H3 rest. cbn [find_first_occurrence existsb].
  rewrite (String.eqb_sym ev "Port1In"), (String.eqb_sym ev "Port3In").
  by rewrite H1, H3.
Qed.

Lemma stimulus_run_left (log : list string) :
  completes_from left_graph "stimulus_state" log = true →
  openings_from left_graph "stimulus_state" log
  = if String.eqb (find_first_occurrence log sides) "Port1In"
    then 1%nat else 0%nat.
Proof.
  pose proof (lights_open_no_valve outputs lights) as Hout.
  unfold openings_from.
  induction log as [|ev rest IH]; [discriminate|].
  step_run.
  destruct (String.eqb_spec "Port1In" ev) as [<-|H1]; settle.
  { intros _. step_run. rewrite Hout. fold_openings. by rewrite reward_run. }
  destruct (String.eqb_spec "Port3In" ev) as [<-|H3]; settle.
  { intros _. step_run. rewrite Hout. fold_openings. by rewrite punish_run. }
  apply String.eqb_neq in H1, H3. rewrite (not_a_side ev H1 H3).
  destruct (String.eqb_spec "Tup" ev) as [<-|HT]; settle; [|exact IH].
  destruct rest; [|discriminate]. intros _. step_run. by rewrite Hout.
Qed.

Lemma stimulus_run_right (log : list string) :
  completes_from right_graph "stimulus_state" log = true →
  openings_from right_graph "stimulus_state" log
  = if String.eqb (find_first_occurrence log sides) "Port3In"
    then 1%nat else 0%nat.
Proof.
  pose proof (lights_open_no_valve outputs lights) as Hout.
  unfold openings_from.
  induction log as [|ev rest IH]; [discriminate|].
  step_run.
  destruct (String.eqb_spec "Port1In" ev) as [<-|H1]; settle.
  { intros _. step_run. rewrite Hout. fold_openings. by rewrite punish_run. }
  destruct (String.eqb_spec "Port3In" ev) as [<-|H3]; settle.
  { intros _. step_run. rewrite Hout. fold_openings. by rewrite reward_run. }
  apply String.eqb_neq in H1, H3. rewrite (not_a_side ev H1 H3).
  destruct (String.eqb_spec "Tup" ev) as [<-|HT]; settle; [|exact IH].
  destruct rest; [|discriminate]. intros _. step_run. by rewrite Hout.
Qed.

End Punished.

(** Up to the centre poke nothing happens: a run that completes goes on
    from the stimulus state with the rest of the log, and when no side
    entry precedes the centre poke the first side entry of the log is
    the first one of that rest. *)
Lemma ready_run
    (high timer : value) (la ra : string) (outputs : list output_action)
    (opening : value) (valve : Output) (punishment iti : value)
    (log : list string) :
  find_first_occurrence log ["Port1In"; "Port3In"; "Port2In"] = "Port2In" →
  completes_from (trial_graph high timer la ra outputs opening valve punishment iti)
    "ready_to_initiate" log = true →
  ∃ rest,
    completes_from (trial_graph high timer la ra outputs opening valve punishment iti)
      "stimulus_state" rest = true
    ∧ openings_from (trial_graph high timer la ra outputs opening valve punishment iti)
        "ready_to_initiate" log
      = openings_from (trial_graph high timer la ra outputs opening valve punishment iti)
          "stimulus_state" rest
    ∧ find_first_occurrence log ["Port1In"; "Port3In"]
      = find_first_occurrence rest ["Port1In"; "Port3In"].
Proof.
  unfold openings_from.
  induction log as [|ev rest IH]; [discriminate|].
  intros Hclean. step_run.
  destruct (String.eqb_spec "Port2In" ev) as [<-|H2]; settle.
  - intros Hc. exists rest. split; [exact Hc|]. split; [|reflexivity].
    step_run. reflexivity.
  - cbn [find_first_occurrence existsb] in Hclean.
    destruct (String.eqb_spec ev "Port1In") as [->|H1];
      [cbn in Hclean; discriminate|].
    destruct (String.eqb_spec ev "Port3In") as [->|H3];
      [cbn in Hclean; discriminate|].
    destruct (String.eqb_spec ev "Port2In") as [->|_]; [done|].
    cbn [orb] in Hclean. intros Hc.
    destruct (IH Hclean Hc) as (rest' & Hc' & Hopen & Hfirst).
    exists rest'. split; [exact Hc'|]. split; [exact Hopen|].
    rewrite <- Hfirst. cbn [find_first_occurrence existsb].
    apply String.eqb_neq in H1, H3. by rewrite H1, H3.
Qed.

(** X13: in a session wired for punishment (a stage other than 1), for a
    trial whose type names exactly one side, an event log of the
    completed trial in which no side entry precedes the centre poke and
    a reward volume in the settings: the trial is registered as correct
    exactly when the valve was opened during the run, once. *)
Theorem correct_iff_rewarded_when_punishing
    (st : gmap string value) (rnd : nat) (self built : t) (kind : string)
    (w : value) (log : list string) :
  punish_condition self = Some "punish_state" →
  create_trial rnd (fresh_trial st self) = (Ok tt, built) →
  this_trial_type built = Some kind →
  str_contains "left" kind = negb (str_contains "right" kind) →
  st !! "reward_amount_ml" = Some w →
  find_first_occurrence log ["Port1In"; "Port3In"; "Port2In"] = "Port2In" →
  completes (bpod built) log = true →
  ∃ correct : bool,
    registered (after_trial (with_events log built)).2
    = [("water", w); ("trial_type", VStr kind); ("correct", VBool correct)]
    ∧ valve_openings (bpod built) log = if correct then 1%nat else 0%nat.
Proof.
  intros Hpc Hrun Hk Hone Hw Hclean Hdone.
  assert (Hsided : str_contains "left" kind || str_contains "right" kind = true)
    by (rewrite Hone; by destruct (str_contains "right" kind)).
  destruct (create_trial_sided _ st rnd self built kind Hpc Hrun Hk Hsided)
    as (Hst & Hreg & high & timer & outputs & opening & punishment & iti
          & Hlights & Hg).
  rewrite <- Hst in Hw.
  destruct (after_trial_registers built log kind w Hk Hw) as [_ Hrec].
  rewrite Hreg in Hrec. cbn [app] in Hrec.
  rewrite Hg in Hdone |- *. clear Hg Hsided.
  unfold completes in Hdone. unfold valve_openings, visited.
  destruct (str_contains "left" kind), (str_contains "right" kind);
    try discriminate Hone;
    unfold trial_graph in Hdone |- *; cbv beta iota in Hdone |- *;
    cbn [state_name] in Hdone |- *; fold_openings;
    rewrite ?andb_false_r, ?andb_true_r, ?orb_false_r, ?orb_false_l in Hrec;
    (eexists; split; [exact Hrec|]);
    destruct (ready_run _ _ _ _ _ _ _ _ _ log Hclean Hdone)
      as (rest & Hc & Hopen & ->);
    unfold trial_graph in Hopen; rewrite Hopen.
  - by apply stimulus_run_left.
  - by apply stimulus_run_right.
Qed.

Lemma correct_iff_rewarded_when_punishing_witness :
  let started := (start (new_task stage_two_settings calibrated)).2 in
  let built := (create_trial 3 (fresh_trial stage_two_settings started)).2 in
  let log := ["Port2Out"; "Port2In"; "Port2Out"; "Port3In"; "Port1In"; "Tup"; "Tup"] in
  punish_condition started = Some "punish_state"
  ∧ this_trial_type built = Some "right_hard"
  ∧ completes (bpod built) log = true
  ∧ ∃ correct : bool,
      registered (after_trial (with_events log built)).2
      = [("water", VFloat 0.05); ("trial_type", VStr "right_hard");
         ("correct", VBool correct)]
      ∧ valve_openings (bpod built) log = (if correct then 1%nat else 0%nat)
      ∧ correct = true.
Proof.
  intros started built log.
  assert (Hpc : punish_condition started = Some "punish_state")
    by (vm_compute; reflexivity).
  assert (Hrun : create_trial 3 (fresh_trial stage_two_settings started)
                 = (Ok tt, built)) by (vm_compute; reflexivity).
  assert (Hk : this_trial_type built = Some "right_hard")
    by (vm_compute; reflexivity).
  assert (Hw : stage_two_settings !! "reward_amount_ml" = Some (VFloat 0.05))
    by (vm_compute; reflexivity).
  assert (Hdone : completes (bpod built) log = true) by (vm_compute; reflexivity).
  destruct (correct_iff_rewarded_when_punishing stage_two_settings 3 started
              built "right_hard" (VFloat 0.05) log Hpc Hrun Hk eq_refl Hw
              eq_refl Hdone) as (correct & Hrec & Hopen).
  split; [exact Hpc|]. split; [exact Hk|]. split; [exact Hdone|].
  exists correct. split; [exact Hrec|]. split; [exact Hopen|].
  assert (Hv : valve_openings (bpod built) log = 1%nat) by (vm_compute; reflexivity).
  rewrite Hv in Hopen. destruct correct; [reflexivity|discriminate Hopen].
Defined.

Section Free.
Variables (high timer : value) (outputs : list output_action)
          (opening punishment iti : value).
Hypothesis lights : Forall (λ a, ∃ o v, a = Level o v) outputs.

Local Abbreviation left_free :=
  (trial_graph high timer "reward_state" "stimulus_state" outputs opening Valve1
     punishment iti).
Local Abbreviation right_free :=
  (trial_graph high timer "stimulus_state" "reward_state" outputs opening Valve3
     punishment iti).

Lemma stimulus_run_left_free (log : list string) :
  completes_from left_free "stimulus_state" log = true →
  find_first_occurrence log ["Port1In"; "Port3In"] = "Port1In" →
  openings_from left_free "stimulus_state" log = 1%nat.
Proof.
  pose proof (lights_open_no_valve outputs lights) as Hout.
  unfold openings_from.
  induction log as [|ev rest IH]; [discriminate|].
  step_run.
  destruct (String.eqb_spec "Port1In" ev) as [<-|H1]; settle.
  { intros _ _. step_run. rewrite Hout. fold_openings. by rewrite reward_run. }
  destruct (String.eqb_spec "Port3In" ev) as [<-|H3]; settle.
  { intros _ Hfirst. cbn in Hfirst. discriminate Hfirst. }
  apply String.eqb_neq in H1, H3. rewrite (not_a_side ev H1 H3).
  destruct (String.eqb_spec "Tup" ev) as [<-|HT]; settle; [|exact IH].
  destruct rest; [|discriminate]. intros _ Hfirst. discriminate Hfirst.
Qed.

Lemma stimulus_run_right_free (log : list string) :
  completes_from right_free "stimulus_state" log = true →
  find_first_occurrence log ["Port1In"; "Port3In"] = "Port3In" →
  openings_from right_free "stimulus_state" log = 1%nat.
Proof.
  pose proof (lights_open_no_valve outputs lights) as Hout.
  unfold openings_from.
  induction log as [|ev rest IH]; [discriminate|].
  step_run.
  destruct (String.eqb_spec "Port1In" ev) as [<-|H1]; settle.
  { intros _ Hfirst. cbn in Hfirst. discriminate Hfirst. }
  destruct (String.eqb_spec "Port3In" ev) as [<-|H3]; settle.
  { intros _ _. step_run. rewrite Hout. fold_openings. by rewrite reward_run. }
  apply String.eqb_neq in H1, H3. rewrite (not_a_side ev H1 H3).
  destruct (String.eqb_spec "Tup" ev) as [<-|HT]; settle; [|exact IH].
  destruct rest; [|discriminate]. intros _ Hfirst. discriminate Hfirst.
Qed.

End Free.

(** X21: in a session wired for a free second choice (stage 1), under
    the same conditions on the trial and its event log, a trial
    registered as correct was rewarded; the converse fails, since after a
    first entry on the wrong side the mouse may still enter the right
    one and be rewarded in a trial registered as incorrect. *)
Theorem correct_implies_rewarded_with_free_choice
    (st : gmap string value) (rnd : nat) (self built : t) (kind : string)
    (w : value) (log : list string) :
  punish_condition self = Some "stimulus_state" →
  create_trial rnd (fresh_trial st self) = (Ok tt, built) →
  this_trial_type built = Some kind →
  str_contains "left" kind = negb (str_contains "right" kind) →
  st !! "reward_amount_ml" = Some w →
  find_first_occurrence log ["Port1In"; "Port3In"; "Port2In"] = "Port2In" →
  completes (bpod built) log = true →
  registered (after_trial (with_events log built)).2
  = [("water", w); ("trial_type", VStr kind); ("correct", VBool true)] →
  valve_openings (bpod built) log = 1%nat.
Proof.
  intros Hpc Hrun Hk Hone Hw Hclean Hdone Hcorrect.
  assert (Hsided : str_contains "left" kind || str_contains "right" kind = true)
    by (rewrite Hone; by destruct (str_contains "right" kind)).
  destruct (create_trial_sided _ st rnd self built kind Hpc Hrun Hk Hsided)
    as (Hst & Hreg & high & timer & outputs & opening & punishment & iti
          & Hlights & Hg).
  rewrite <- Hst in Hw.
  destruct (after_trial_registers built log kind w Hk Hw) as [_ Hrec].
  rewrite Hreg, Hcorrect in Hrec. cbn [app] in Hrec.
  injection Hrec as Hrec. symmetry in Hrec.
  rewrite Hg in Hdone |- *. clear Hg Hsided.
  unfold completes in Hdone. unfold valve_openings, visited.
  destruct (str_contains "left" kind), (str_contains "right" kind);
    try discriminate Hone;
    unfold trial_graph in Hdone |- *; cbv beta iota in Hdone |- *;
    cbn [state_name] in Hdone |- *; fold_openings;
    rewrite ?andb_false_r, ?andb_true_r, ?orb_false_r, ?orb_false_l in Hrec;
    apply String.eqb_eq in Hrec;
    destruct (ready_run _ _ _ _ _ _ _ _ _ log Hclean Hdone)
      as (rest & Hc & Hopen & Hfirst);
    rewrite Hfirst in Hrec; unfold trial_graph in Hopen; rewrite Hopen.
  - by apply stimulus_run_left_free.
  - by apply stimulus_run_right_free.
Qed.

Lemma correct_implies_rewarded_with_free_choice_witness :
  let started := (start (new_task runnable_settings calibrated)).2 in
  let built := (create_trial 0 (fresh_trial runnable_settings started)).2 in
  let log := ["Port2In"; "Port1In"; "Tup"; "Tup"] in
  let second_choice := ["Port2In"; "Port3In"; "Port1In"; "Tup"; "Tup"] in
  punish_condition started = Some "stimulus_state"
  ∧ this_trial_type built = Some "left_easy"
  ∧ completes (bpod built) log = true
  ∧ valve_openings (bpod built) log = 1%nat
  ∧ completes (bpod built) second_choice = true
  ∧ registered (after_trial (with_events second_choice built)).2
    = [("water", VFloat 0.08); ("trial_type", VStr "left_easy");
       ("correct", VBool false)]
  ∧ valve_openings (bpod built) second_choice = 1%nat.
Proof.
  intros started built log second_choice.
  assert (Hpc : punish_condition started = Some "stimulus_state")
    by (vm_compute; reflexivity).
  assert (Hrun : create_trial 0 (fresh_trial runnable_settings started)
                 = (Ok tt, built)) by (vm_compute; reflexivity).
  assert (Hk : this_trial_type built = Some "left_easy")
    by (vm_compute; reflexivity).
  assert (Hone : str_contains "left" "left_easy"
                 = negb (str_contains "right" "left_easy"))
    by (vm_compute; reflexivity).
  assert (Hw : runnable_settings !! "reward_amount_ml" = Some (VFloat 0.08))
    by (vm_compute; reflexivity).
  assert (Hclean : find_first_occurrence log ["Port1In"; "Port3In"; "Port2In"]
                   = "Port2In") by (vm_compute; reflexivity).
  assert (Hdone : completes (bpod built) log = true) by (vm_compute; reflexivity).
  assert (Hrec : registered (after_trial (with_events log built)).2
                 = [("water", VFloat 0.08); ("trial_type", VStr "left_easy");
                    ("correct", VBool true)]) by (vm_compute; reflexivity).
  split; [exact Hpc|]. split; [exact Hk|]. split; [exact Hdone|].
  split; [exact (correct_implies_rewarded_with_free_choice runnable_settings 0
                   started built "left_easy" (VFloat 0.08) log
                   Hpc Hrun Hk Hone Hw Hclean Hdone Hrec)|].
  split; [vm_compute; reflexivity|]. split; vm_compute; reflexivity.
Defined.

End DiscriminationRun.

Section SettingsAreRead.

Ltac run_ftl H :=
  cbv [FollowTheLight.start FollowTheLight.create_trial
       FollowTheLight.after_trial mbind M_bind bind FollowTheLight.setting get
       lift_result getattr attr modify FollowTheLight.add_state
       FollowTheLight.register_value mret M_ret ret raise
       FollowTheLight.random_choice FollowTheLight.append_stimulus_state_output
       FollowTheLight.set_left_valve_opening_time
       FollowTheLight.set_right_valve_opening_time
       FollowTheLight.set_punish_condition FollowTheLight.set_this_trial_type
       FollowTheLight.set_stimulus_state_output
       FollowTheLight.set_left_poke_action FollowTheLight.set_right_poke_action
       FollowTheLight.set_valve_to_open FollowTheLight.set_valve_opening_time
       FollowTheLight.settings FollowTheLight.water_calibration
       FollowTheLight.left_valve_opening_time
       FollowTheLight.right_valve_opening_time FollowTheLight.punish_condition
       FollowTheLight.this_trial_type FollowTheLight.stimulus_state_output
       FollowTheLight.left_poke_action FollowTheLight.right_poke_action
       FollowTheLight.valve_to_open FollowTheLight.valve_opening_time
       FollowTheLight.bpod FollowTheLight.trial_data FollowTheLight.registered]
    in H.

Ltac run_hab H :=
  cbv [Habituation.start Habituation.create_trial Habituation.after_trial
       mbind M_bind bind Habituation.setting get lift_result getattr attr
       modify Habituation.add_state Habituation.register_value mret M_ret ret
       raise Habituation.set_left_valve_opening_time
       Habituation.set_right_valve_opening_time
       Habituation.settings Habituation.water_calibration
       Habituation.left_valve_opening_time
       Habituation.right_valve_opening_time Habituation.bpod
       Habituation.registered] in H.

Ltac split_cases H :=
  repeat match type of H with
         | context [match ?x with _ => _ end] =>
             lazymatch x with
             | context [match _ with _ => _ end] => fail
             | _ => destruct x eqn:?
             end
         end.

(** X15: the two tasks only read the settings.  Whatever the outcome of
    [start], [create_trial] or [after_trial], of Habituation or of the
    discrimination task, the settings of the task object afterwards are
    the settings before the call. *)
Theorem tasks_only_read_settings :
  (∀ self, FollowTheLight.settings (FollowTheLight.start self).2
           = FollowTheLight.settings self)
  ∧ (∀ rnd self,
       FollowTheLight.settings (FollowTheLight.create_trial rnd self).2
       = FollowTheLight.settings self)
  ∧ (∀ self, FollowTheLight.settings (FollowTheLight.after_trial self).2
             = FollowTheLight.settings self)
  ∧ (∀ self, Habituation.settings (Habituation.start self).2
             = Habituation.settings self)
  ∧ (∀ self, Habituation.settings (Habituation.create_trial self).2
             = Habituation.settings self)
  ∧ (∀ self, Habituation.settings (Habituation.after_trial self).2
             = Habituation.settings self).
Proof.
  split; [|split; [|split; [|split; [|split] ] ] ].
  - intros self. destruct self. remember (FollowTheLight.start _) as r eqn:H.
    run_ftl H. split_cases H; by subst r.
  - intros rnd self. destruct self.
    remember (FollowTheLight.create_trial _ _) as r eqn:H.
    run_ftl H. split_cases H; by subst r.
  - intros self. destruct self.
    remember (FollowTheLight.after_trial _) as r eqn:H.
    run_ftl H. split_cases H; by subst r.
  - intros self. destruct self. remember (Habituation.start _) as r eqn:H.
    run_hab H. split_cases H; by subst r.
  - intros self. destruct self.
    remember (Habituation.create_trial _) as r eqn:H.
    run_hab H. split_cases H; by subst r.
  - intros self. destruct self.
    remember (Habituation.after_trial _) as r eqn:H.
    run_hab H. split_cases H; by subst r.
Qed.

End SettingsAreRead.

Section EvaluatorMore.
Import FollowTheLight.

Ltac run_method H :=
  cbv [start create_trial after_trial mbind M_bind bind setting get lift_result
       getattr attr modify add_state register_value mret M_ret ret raise
       random_choice append_stimulus_state_output
       set_left_valve_opening_time set_right_valve_opening_time
       set_punish_condition set_this_trial_type set_stimulus_state_output
       set_left_poke_action set_right_poke_action set_valve_to_open
       set_valve_opening_time fresh_trial new_task with_events
       settings water_calibration left_valve_opening_time
       right_valve_opening_time punish_condition this_trial_type
       stimulus_state_output left_poke_action right_poke_action valve_to_open
       valve_opening_time bpod trial_data registered] in H.

Lemma existsb_eqb_targets (x : string) (t1 t2 : list string) :
  (∀ y, y ∈ t1 ↔ y ∈ t2) →
  existsb (String.eqb x) t1 = existsb (String.eqb x) t2.
Proof.
  intros Hsame. apply eq_true_iff_eq.
  rewrite !existsb_eqb_elem_of. apply Hsame.
Qed.

(** X16: only membership in the targets matters to the scan, not their
    order or repetition; what it returns is the sentinel or an element of
    both the event list and the targets; and on a concatenation it
    answers from the first part when that part holds a target and from
    the second part otherwise. *)
Theorem find_first_occurrence_scan
    (event_list later targets targets' : list string) :
  ((∀ y, y ∈ targets ↔ y ∈ targets') →
     find_first_occurrence event_list targets
     = find_first_occurrence event_list targets')
  ∧ (find_first_occurrence event_list targets = "NaN"
     ∨ (find_first_occurrence event_list targets ∈ event_list
        ∧ find_first_occurrence event_list targets ∈ targets))
  ∧ find_first_occurrence (event_list ++ later) targets
    = if existsb (λ e, existsb (String.eqb e) targets) event_list
      then find_first_occurrence event_list targets
      else find_first_occurrence later targets.
Proof.
  split; [|split].
  - intros Hsame. induction event_list as [|e rest IH]; [done|].
    cbn [find_first_occurrence].
    rewrite (existsb_eqb_targets e targets targets' Hsame). by rewrite IH.
  - induction event_list as [|e rest IH]; [by left|].
    cbn [find_first_occurrence].
    destruct (existsb (String.eqb e) targets) eqn:He.
    + right. split; [by left|by apply existsb_eqb_elem_of].
    + destruct IH as [IH|[IH1 IH2] ]; [by left|right]. split; [by right|done].
  - induction event_list as [|e rest IH]; [done|].
    cbn [app find_first_occurrence existsb].
    destruct (existsb (String.eqb e) targets); [done|exact IH].
Qed.

Lemma find_first_occurrence_scan_witness :
  (∀ y, y ∈ ["Port1In"; "Port3In"] ↔ y ∈ ["Port3In"; "Port1In"; "Port3In"])
  ∧ find_first_occurrence ["Port2In"; "Port3In"; "Port1In"] ["Port1In"; "Port3In"]
    = find_first_occurrence ["Port2In"; "Port3In"; "Port1In"]
        ["Port3In"; "Port1In"; "Port3In"].
Proof.
  assert (H : ∀ y, y ∈ ["Port1In"; "Port3In"]
                   ↔ y ∈ ["Port3In"; "Port1In"; "Port3In"]).
  { intros y. rewrite !elem_of_cons, !elem_of_nil. tauto. }
  split; [exact H|].
  exact (proj1 (find_first_occurrence_scan
                  ["Port2In"; "Port3In"; "Port1In"] []
                  ["Port1In"; "Port3In"] ["Port3In"; "Port1In"; "Port3In"]) H).
Defined.

(** X17: what [after_trial] does when it cannot complete.  It completes
    exactly when a trial type has been drawn and the reward volume is
    set.  With no trial type and a side entry in the log it raises for
    [this_trial_type] and registers nothing.  With no reward volume (and
    a trial type, or no side entry) it raises for [reward_amount_ml] and
    registers nothing.  With the reward volume set, no trial type and no
    side entry in the log it registers the water and then raises for
    [this_trial_type]: the trial record is left with the water alone. *)
Theorem after_trial_outcome (self : t) (log : list string) :
  let first_poke := find_first_occurrence log ["Port1In"; "Port3In"] in
  ((after_trial (with_events log self)).1 = Ok tt ↔
     is_Some (this_trial_type self)
     ∧ is_Some (settings self !! "reward_amount_ml"))
  ∧ (this_trial_type self = None →
     first_poke = "Port1In" ∨ first_poke = "Port3In" →
     (after_trial (with_events log self)).1
     = Raise (AttributeError "this_trial_type")
     ∧ registered (after_trial (with_events log self)).2 = registered self)
  ∧ (settings self !! "reward_amount_ml" = None →
     is_Some (this_trial_type self)
     ∨ (first_poke ≠ "Port1In" ∧ first_poke ≠ "Port3In") →
     (after_trial (with_events log self)).1
     = Raise (AttributeError "reward_amount_ml")
     ∧ registered (after_trial (with_events log self)).2 = registered self)
  ∧ (∀ w, settings self !! "reward_amount_ml" = Some w →
          this_trial_type self = None →
          first_poke ≠ "Port1In" → first_poke ≠ "Port3In" →
          (after_trial (with_events log self)).1
          = Raise (AttributeError "this_trial_type")
          ∧ registered (after_trial (with_events log self)).2
            = registered self ++ [("water", w)]).
Proof.
  intros first_poke. destruct self.
  remember (after_trial _) as r eqn:H. run_method H.
  fold first_poke in H.
  destruct (String.eqb_spec first_poke "Port1In") as [H1|H1],
    (String.eqb_spec first_poke "Port3In") as [H3|H3],
    this_trial_type0 as [kind|],
    (settings0 !! "reward_amount_ml") as [w|] eqn:Hw;
    try (destruct (str_contains "left" kind));
    try (destruct (str_contains "right" kind));
    cbv beta iota zeta in H; rewrite ?Hw in H; subst r;
    cbn [fst snd registered this_trial_type settings];
    (split; [split|split; [|split] ]).
  all: first
    [ solve [intros [=]]
    | solve [intros [ [? ?] [? ?] ]; congruence]
    | solve [intros _; split; eauto]
    | solve [intros; congruence]
    | solve [intros; by split]
    | solve [intros ? [ [? ?]|[? ?] ]; first [congruence | by split] ]
    | solve [intros ? [?|?]; first [congruence | by split] ]
    | solve [intros ? ? ? ? ?; simplify_eq; first [congruence | by split] ] ].
Qed.

Lemma after_trial_outcome_witness :
  let self := new_task default_settings calibrated in
  let log := ["Port2In"; "Tup"] in
  default_settings !! "reward_amount_ml" = Some (VFloat 0.08)
  ∧ this_trial_type self = None
  ∧ (after_trial (with_events log self)).1
    = Raise (AttributeError "this_trial_type")
  ∧ registered (after_trial (with_events log self)).2
    = [("water", VFloat 0.08)]
  ∧ registered (after_trial (with_events ["Port2In"; "Port1In"] self)).2 = [].
Proof.
  intros self log.
  assert (Hw : settings self !! "reward_amount_ml" = Some (VFloat 0.08))
    by (vm_compute; reflexivity).
  destruct (after_trial_outcome self log) as (_ & _ & _ & Hpartial).
  destruct (Hpartial (VFloat 0.08) Hw eq_refl) as [Hraise Hreg];
    [vm_compute; discriminate|vm_compute; discriminate|].
  destruct (after_trial_outcome self ["Port2In"; "Port1In"]) as (_ & Hnone & _).
  destruct (Hnone eq_refl) as [_ Hreg']; [left; vm_compute; reflexivity|].
  split; [exact Hw|]. split; [reflexivity|]. split; [exact Hraise|].
  split; [exact Hreg|exact Hreg'].
Defined.

End EvaluatorMore.

(** * Properties of the Simple task and of the GUI layout *)

Section SimpleTask.
Import Simple.

Ltac run_simple H :=
  cbv [start create_trial mbind M_bind bind setting get lift_result getattr
       modify add_state print set_hola set_delay set_setting mret M_ret ret
       raise fresh_trial settings hola delay bpod stdout] in H.

Ltac split_cases H :=
  repeat match type of H with
         | context [match ?x with _ => _ end] =>
             lazymatch x with
             | context [match _ with _ => _ end] => fail
             | _ => destruct x eqn:?
             end
         end.

(** X18: [Simple.start] prints "start" and then the settings [delay],
    [mylist] and [next_task] in that order.  It completes exactly when
    the three are set, and then has printed the four lines; otherwise it
    raises [AttributeError] for the first one missing, after having
    printed the ones before it.  It never changes the settings. *)
Theorem simple_start_outcome (self : t) :
  settings (start self).2 = settings self
  ∧ ((start self).1 = Ok tt ↔
       is_Some (settings self !! "delay")
       ∧ is_Some (settings self !! "mylist")
       ∧ is_Some (settings self !! "next_task"))
  ∧ (∀ d m n, settings self !! "delay" = Some d →
              settings self !! "mylist" = Some m →
              settings self !! "next_task" = Some n →
              (start self).1 = Ok tt
              ∧ stdout (start self).2
                = stdout self ++ [Text "start"; Shown d; Shown m; Shown n])
  ∧ (settings self !! "delay" = None →
       (start self).1 = Raise (AttributeError "delay")
       ∧ stdout (start self).2 = stdout self ++ [Text "start"])
  ∧ (∀ d, settings self !! "delay" = Some d →
          settings self !! "mylist" = None →
          (start self).1 = Raise (AttributeError "mylist")
          ∧ stdout (start self).2 = stdout self ++ [Text "start"; Shown d])
  ∧ (∀ d m, settings self !! "delay" = Some d →
            settings self !! "mylist" = Some m →
            settings self !! "next_task" = None →
            (start self).1 = Raise (AttributeError "next_task")
            ∧ stdout (start self).2
              = stdout self ++ [Text "start"; Shown d; Shown m]).
Proof.
  destruct self. remember (start _) as r eqn:H. run_simple H.
  split_cases H; subst r; cbn [fst snd settings stdout];
    rewrite <- ?app_assoc; cbn [app];
    (split; [reflexivity|]); (split; [split|]).
  all: first
    [ solve [intros [=]]
    | solve [intros ([? ?] & [? ?] & [? ?]); congruence]
    | solve [intros _; eauto]
    | solve [intros _; reflexivity]
    | idtac ].
  all: split; [|split; [|split] ]; intros; simplify_eq; by split.
Qed.

Lemma simple_start_outcome_witness :
  let missing := new_task default_settings in
  let complete :=
    new_task (setattr "mylist" (VList ["a"; "b"])
                (setattr "delay" (VInt 7) default_settings)) in
  settings missing !! "delay" = None
  ∧ (start missing).1 = Raise (AttributeError "delay")
  ∧ stdout (start missing).2 = [Text "start"]
  ∧ (start complete).1 = Ok tt
  ∧ stdout (start complete).2
    = [Text "start"; Shown (VInt 7); Shown (VList ["a"; "b"]);
       Shown (VStr "Habituation")].
Proof.
  intros missing complete.
  assert (H : settings missing !! "delay" = None) by (vm_compute; reflexivity).
  destruct (simple_start_outcome missing) as (_ & _ & _ & Hmiss & _).
  destruct (Hmiss H) as [Hraise Hout].
  destruct (simple_start_outcome complete) as (_ & _ & Hall & _).
  destruct (Hall (VInt 7) (VList ["a"; "b"]) (VStr "Habituation"))
    as [Hok Hout']; [vm_compute; reflexivity..|].
  split; [exact H|]. split; [exact Hraise|]. split; [exact Hout|].
  split; [exact Hok|exact Hout'].
Defined.

(** X19: [Simple.create_trial] never fails and, unlike the other tasks,
    writes the settings: [delay] becomes 3 whatever it was and every
    other setting is kept, so a [start] after it no longer misses
    [delay].  Its graph has the two states one and two, no dangling
    edge, and opens no valve on any event log. *)
Theorem simple_create_trial_writes_delay (self : t) :
  (create_trial (fresh_trial self)).1 = Ok tt
  ∧ settings (create_trial (fresh_trial self)).2 !! "delay" = Some (VInt 3)
  ∧ (∀ k, k ≠ "delay" →
       settings (create_trial (fresh_trial self)).2 !! k = settings self !! k)
  ∧ (start (create_trial (fresh_trial self)).2).1 ≠ Raise (AttributeError "delay")
  ∧ state_names (bpod (create_trial (fresh_trial self)).2) = ["one"; "two"]
  ∧ no_dangling (bpod (create_trial (fresh_trial self)).2)
  ∧ (∀ log, valve_openings (bpod (create_trial (fresh_trial self)).2) log = 0%nat).
Proof.
  destruct self. remember (create_trial _) as r eqn:H. run_simple H. subst r.
  cbn [fst snd settings bpod app].
  split; [reflexivity|]. split; [apply lookup_insert_eq|].
  split; [intros k Hk; unfold setattr; by rewrite lookup_insert_ne|].
  split.
  { remember (start _) as r eqn:H. run_simple H. unfold setattr in H.
    rewrite lookup_insert_eq in H. split_cases H; subst r; discriminate. }
  split; [reflexivity|]. split.
  - intros s ev target Hin Hc.
    repeat (rewrite elem_of_cons in Hin); rewrite elem_of_nil in Hin.
    decompose [or] Hin; try contradiction; subst; cbn in Hc;
      repeat (rewrite elem_of_cons in Hc); rewrite elem_of_nil in Hc;
      decompose [or] Hc; try contradiction; simplify_eq;
      [right; cbn; apply list_elem_of_further, list_elem_of_here|by left].
  - intros log. unfold valve_openings, visited. cbn [state_name].
    assert (Htwo : ∀ l, length (List.filter
              (λ name, match find_state
                  [ {| state_name := "one"; state_timer := VInt 1;
                       state_change_conditions := [(Tup, "two")];
                       output_actions := [Level PWM1 (VInt 255)] |};
                    {| state_name := "two"; state_timer := VInt 0;
                       state_change_conditions := [(Tup, "exit")];
                       output_actions := [] |} ] name with
                | Some st => opens_valve st | None => false end)
              (visited_from
                  [ {| state_name := "one"; state_timer := VInt 1;
                       state_change_conditions := [(Tup, "two")];
                       output_actions := [Level PWM1 (VInt 255)] |};
                    {| state_name := "two"; state_timer := VInt 0;
                       state_change_conditions := [(Tup, "exit")];
                       output_actions := [] |} ] "two" l)) = 0%nat).
    { induction l as [|ev rest IH]; [reflexivity|].
      cbn [visited_from]. cbn [find_state List.find state_name String.eqb
                               Ascii.eqb Bool.eqb].
      unfold next_state.
      cbn [state_change_conditions List.find fst snd event_name fmap
           option_fmap option_map].
      destruct (String.eqb "Tup" ev); [reflexivity|exact IH]. }
    induction log as [|ev rest IH]; [reflexivity|].
    cbn [visited_from]. cbn [find_state List.find state_name String.eqb
                             Ascii.eqb Bool.eqb].
    unfold next_state.
    cbn [state_change_conditions List.find fst snd event_name fmap
         option_fmap option_map].
    destruct (String.eqb "Tup" ev); [|exact IH].
    cbn [fmap option_fmap option_map snd]. apply Htwo.
Qed.

End SimpleTask.

Section GuiLayout.
Import Gui.

(** X20: on an object on which it has not run yet, [gui_tabs] succeeds,
    and afterwards every setting placed in a tab is one that
    [default_training_settings] defines, no setting is placed twice, the
    only restricted setting is [trial_types], it is itself in a tab, and
    its permitted values are exactly the default trial types.  On an
    object that already holds the attribute [gui_tabs], in particular
    when called a second time, the call raises [TypeError] and changes
    nothing, because the dictionary assigned hides the method. *)
Theorem gui_tabs_match_default_settings (self : t) :
  (gui_tabs self = None →
     (gui_tabs_method self).1 = Ok tt
     ∧ Forall (λ name, is_Some (default_settings !! name))
              (tabbed (gui_tabs_method self).2)
     ∧ NoDup (tabbed (gui_tabs_method self).2)
     ∧ (∃ restricted permitted,
          gui_tabs_restricted (gui_tabs_method self).2 = Some restricted
          ∧ dom restricted = {["trial_types"]}
          ∧ "trial_types" ∈ tabbed (gui_tabs_method self).2
          ∧ restricted !! "trial_types" = Some permitted
          ∧ default_settings !! "trial_types" = Some (VList permitted))
     ∧ gui_tabs_method (gui_tabs_method self).2
       = (Raise TypeError, (gui_tabs_method self).2))
  ∧ (∀ d, gui_tabs self = Some d →
          gui_tabs_method self = (Raise TypeError, self)).
Proof.
  destruct self as [tabs restricted]. cbn [gui_tabs].
  split; [|by intros d ->]. intros ->.
  split; [reflexivity|].
  assert (Htab : tabbed (gui_tabs_method {| gui_tabs := None;
                                            gui_tabs_restricted := restricted |}).2
                 = ["stage"; "trial_types"; "punishment_time"; "iti_time";
                    "response_time"; "reward_amount_ml"; "light_intensity_high";
                    "light_intensity_low"])
    by (vm_compute; reflexivity).
  rewrite Htab. split.
  { repeat apply Forall_cons_2; try apply Forall_nil_2;
      eexists; vm_compute; reflexivity. }
  split.
  { apply (bool_decide_unpack _). vm_compute. reflexivity. }
  split; [|reflexivity].
  do 2 eexists. split; [reflexivity|]. split.
  { rewrite dom_insert_L, dom_empty_L. by rewrite union_empty_r_L. }
  split; [apply list_elem_of_further, list_elem_of_here|].
  split; [apply lookup_insert_eq|]. vm_compute. reflexivity.
Qed.

Lemma gui_tabs_match_default_settings_witness :
  let self := {| gui_tabs := None; gui_tabs_restricted := None |} in
  let held := {| gui_tabs := Some ∅; gui_tabs_restricted := None |} in
  gui_tabs self = None
  ∧ (gui_tabs_method self).1 = Ok tt
  ∧ gui_tabs_method (gui_tabs_method self).2
    = (Raise TypeError, (gui_tabs_method self).2)
  ∧ gui_tabs_method held = (Raise TypeError, held).
Proof.
  intros self held.
  destruct (gui_tabs_match_default_settings self) as [Hfirst _].
  destruct (Hfirst eq_refl) as (Hok & _ & _ & _ & Hagain).
  destruct (gui_tabs_match_default_settings held) as [_ Hheld].
  split; [reflexivity|]. split; [exact Hok|]. split; [exact Hagain|].
  exact (Hheld ∅ eq_refl).
Defined.

End GuiLayout.
